(** * F1-Predictions: the scoring pipeline of [prediction.py]

    A shallow embedding of [get_session_data], [get_qualifying_positions],
    [calculate_prediction_score] and [predict_race_winner].

    Numbers.  Scores, grid positions and durations in seconds are Python
    floats in the script; here they are exact rationals ([Q]), compared
    with [==].  Rounding of the interpreter's binary floating point is not
    modelled.  A lap time is a [Timedelta], a whole number of nanoseconds
    ([Z]); the conversions of the summarizer between floats and
    [Timedelta] values, which cut a result down to whole nanoseconds or
    microseconds, are modelled.

    Effects.  [calculate_prediction_score] only computes or raises: it is a
    function into [result].  The functions that call the provider also
    print; they are programs of the monad [IO], whose state is the text
    printed so far.

    Tables.  Every [pandas.DataFrame] of the script is built either from a
    list of dictionaries with a fixed key set, or as [pd.DataFrame()].  A
    frame is therefore a list of records; the frame built from the empty
    list has no columns at all, so looking up a column by name in it, or
    sorting it by a column name, raises [KeyError]. *)

From Stdlib Require Import List String Ascii Bool ZArith QArith Qminmax Qabs Qround.
From Stdlib Require Import Lia Lqa Sorted Permutation DecimalString.
Import ListNotations.

Open Scope string_scope.
Open Scope Q_scope.

(** ** Exceptions and fallible computations *)

Inductive exn : Type :=
| KeyError (key : string)
| ValueError (msg : string)
| IndexError (msg : string)
| ProviderError (msg : string).

Inductive result (A : Type) : Type :=
| Ok (a : A)
| Raise (e : exn).

Arguments Ok {A} a.
Arguments Raise {A} e.

Definition rbind {A B} (m : result A) (k : A -> result B) : result B :=
  match m with
  | Ok a => k a
  | Raise e => Raise e
  end.

Declare Scope result_scope.
Delimit Scope result_scope with result.
Notation "x <- m ;; k" := (rbind m (fun x => k))
  (at level 61, m at next level, right associativity) : result_scope.

(** ** Rows of the tables *)

(** One row of the frame returned by [get_session_data]. *)
Module PracticeRow.
Record t : Type := mk {
    Driver : string;
    FastestLap : option Q;
    AverageLap : option Q;
    Consistency : option Q;
    TotalLaps : Z;
    Session : string
  }.
End PracticeRow.

(** One row of the frame returned by [get_qualifying_positions]. *)
Module QualRow.
Record t : Type := mk {
    Driver : string;
    QualifyingPosition : Q;
    Q1Time : option Q;
    Q2Time : option Q;
    Q3Time : option Q
  }.
End QualRow.

(** A value of the dictionary [driver_scores]. *)
Module Profile.
Record t : Type := mk {
    AvgFastestLap : Q;
    Consistency : Q;
    TotalLaps : Z;
    PracticeScore : Q
  }.
End Profile.

(** One row of the frame returned by [calculate_prediction_score]. *)
Module Prediction.
Record t : Type := mk {
    Driver : string;
    QualifyingPosition : Q;
    PracticeScore : Q;
    FinalScore : Q;
    AvgFastestLap : Q;
    Consistency : Q
  }.
End Prediction.

(** ** Library operations used by the script *)

(** [dict.get(key, default)] on a dictionary with string keys. *)
Fixpoint dict_get {V : Type} (d : list (string * V)) (key : string) (default : V) : V :=
  match d with
  | [] => default
  | (k, v) :: d' => if String.eqb k key then v else dict_get d' key default
  end.

(** [key in d] and [d[key]] for an existing key. *)
Fixpoint dict_lookup {V : Type} (d : list (string * V)) (key : string) : option V :=
  match d with
  | [] => None
  | (k, v) :: d' => if String.eqb k key then Some v else dict_lookup d' key
  end.

(** [Series.unique()]: the distinct values in order of first appearance. *)
Fixpoint unique (l : list string) : list string :=
  match l with
  | [] => []
  | x :: l' => x :: filter (fun y => negb (String.eqb x y)) (unique l')
  end.

Definition Qsum (l : list Q) : Q := fold_right Qplus 0 l.

Fixpoint multiply (a w : list Q) : list Q :=
  match a, w with
  | x :: a', y :: w' => x * y :: multiply a' w'
  | _, _ => []
  end.

(** [np.average(a, weights=w)]: [multiply(a, w).sum() / w.sum()].  The
    script calls it with a non-empty list of positive weights only, so the
    sum of the weights is not zero. *)
Definition np_average (a w : list Q) : Q := Qsum (multiply a w) / Qsum w.

(** [np.mean(a)]. *)
Definition np_mean (a : list Q) : Q := Qsum a / inject_Z (Z.of_nat (List.length a)).

(** The builtin [min] of a non-empty list. *)
Definition py_min (x : Q) (xs : list Q) : Q := fold_left Qmin xs x.

(** ** [calculate_prediction_score], step 1: the practice profiles *)

Definition session_weights : list (string * Q) :=
  [("FP1", 0.15); ("FP2", 0.25); ("FP3", 0.35); ("Sprint", 0.25)].

(** The weight appended for a row: [session_weights.get(row['Session'], 0.2)]. *)
Definition session_weight (session : string) : Q :=
  dict_get session_weights session 0.2.

(** The loop of lines 89-92: the two lists grow together, one entry per
    row whose fastest lap is defined. *)
Fixpoint collect_fastest (driver_practice : list PracticeRow.t) : list Q * list Q :=
  match driver_practice with
  | [] => ([], [])
  | row :: rest =>
      let '(fastest_laps, weights) := collect_fastest rest in
      match PracticeRow.FastestLap row with
      | Some t => (t :: fastest_laps, session_weight (PracticeRow.Session row) :: weights)
      | None => (fastest_laps, weights)
      end
  end.

(** The comprehension of line 97. *)
Fixpoint consistency_scores (driver_practice : list PracticeRow.t) : list Q :=
  match driver_practice with
  | [] => []
  | row :: rest =>
      match PracticeRow.Consistency row with
      | Some c => c :: consistency_scores rest
      | None => consistency_scores rest
      end
  end.

Definition rows_of (all_practice : list PracticeRow.t) (driver : string) : list PracticeRow.t :=
  filter (fun row => String.eqb (PracticeRow.Driver row) driver) all_practice.

(** The body of the loop over drivers (lines 83-107): the entry stored in
    [driver_scores], if any. *)
Definition practice_profile (all_practice : list PracticeRow.t) (driver : string)
  : option Profile.t :=
  let driver_practice := rows_of all_practice driver in
  let '(fastest_laps, weights) := collect_fastest driver_practice in
  match fastest_laps with
  | [] => None
  | _ :: _ =>
      let avg_fastest := np_average fastest_laps weights in
      let cs := consistency_scores driver_practice in
      let avg_consistency := match cs with [] => 10.0 | _ :: _ => np_mean cs end in
      let total_laps := fold_right Z.add 0%Z (map PracticeRow.TotalLaps driver_practice) in
      Some (Profile.mk avg_fastest avg_consistency total_laps 0)
  end.

(** [driver_scores] after the first loop, in insertion order. *)
Fixpoint build_profiles (all_practice : list PracticeRow.t) (drivers : list string)
  : list (string * Profile.t) :=
  match drivers with
  | [] => []
  | driver :: rest =>
      match practice_profile all_practice driver with
      | Some p => (driver, p) :: build_profiles all_practice rest
      | None => build_profiles all_practice rest
      end
  end.

(** ** Step 2: the practice score, relative to the fastest profile *)

(** Truth value of a float in a conditional: everything but zero. *)
Definition truthy (x : Q) : bool := negb (Qeq_bool x 0).

Definition consistency_score (consistency : Q) : Q :=
  if truthy consistency then consistency * 100 else 500.

Definition reliability_score (total_laps : Z) : Q :=
  Qmin (inject_Z total_laps / 50) 1.0.

(** Lines 113-117 for one entry of [driver_scores]. *)
Definition score_profile (fastest_overall : Q) (data : Profile.t) : Profile.t :=
  let lap_time_score := (Profile.AvgFastestLap data - fastest_overall) * 1000 in
  Profile.mk (Profile.AvgFastestLap data) (Profile.Consistency data)
    (Profile.TotalLaps data)
    (lap_time_score + consistency_score (Profile.Consistency data)
     - reliability_score (Profile.TotalLaps data) * 100).

(** Line 110; only evaluated on a non-empty dictionary. *)
Definition fastest_overall (driver_scores : list (string * Profile.t)) : Q :=
  match map (fun kv => Profile.AvgFastestLap (snd kv)) driver_scores with
  | [] => 0
  | x :: xs => py_min x xs
  end.

(** Lines 109-117. *)
Definition normalize (driver_scores : list (string * Profile.t))
  : list (string * Profile.t) :=
  match driver_scores with
  | [] => []
  | _ :: _ =>
      let fo := fastest_overall driver_scores in
      map (fun kv => (fst kv, score_profile fo (snd kv))) driver_scores
  end.

(** ** Step 3: the final rows and their order *)

(** Lines 121-137: one row per qualifying row whose driver has a profile. *)
Fixpoint final_rows (driver_scores : list (string * Profile.t))
    (qualifying_data : list QualRow.t) : list Prediction.t :=
  match qualifying_data with
  | [] => []
  | qual_row :: rest =>
      let driver := QualRow.Driver qual_row in
      match dict_lookup driver_scores driver with
      | Some data =>
          let practice_score := Profile.PracticeScore data in
          let qualifying_pos := QualRow.QualifyingPosition qual_row in
          let final_score := (qualifying_pos * 0.6) + (practice_score * 0.4 / 100) in
          Prediction.mk driver qualifying_pos practice_score final_score
            (Profile.AvgFastestLap data) (Profile.Consistency data)
          :: final_rows driver_scores rest
      | None => final_rows driver_scores rest
      end
  end.

Fixpoint insert_by_score (row : Prediction.t) (sorted : list Prediction.t)
  : list Prediction.t :=
  match sorted with
  | [] => [row]
  | r :: rest =>
      if Qle_bool (Prediction.FinalScore row) (Prediction.FinalScore r)
      then row :: r :: rest
      else r :: insert_by_score row rest
  end.

(** The rows in ascending order of [FinalScore].  The library does not fix
    the order of rows with equal scores; nothing below depends on it. *)
Definition ascending (rows : list Prediction.t) : list Prediction.t :=
  fold_right insert_by_score [] rows.

(** [pd.DataFrame(final_scores).sort_values('FinalScore')]: the frame of an
    empty list has no column of that name. *)
Definition sort_values_FinalScore (final_scores : list Prediction.t)
  : result (list Prediction.t) :=
  match final_scores with
  | [] => Raise (KeyError "FinalScore")
  | _ :: _ => Ok (ascending final_scores)
  end.

(** [pd.concat(practice_data, ignore_index=True)]. *)
Definition pd_concat (practice_data : list (list PracticeRow.t))
  : result (list PracticeRow.t) :=
  match practice_data with
  | [] => Raise (ValueError "No objects to concatenate")
  | _ :: _ => Ok (List.concat practice_data)
  end.

(** [all_practice['Driver']]. *)
Definition column_Driver (all_practice : list PracticeRow.t) : result (list string) :=
  match all_practice with
  | [] => Raise (KeyError "Driver")
  | _ :: _ => Ok (map PracticeRow.Driver all_practice)
  end.

(** [driver_scores] as it stands at line 108, and at line 119. *)
Definition profiles_of (all_practice : list PracticeRow.t) : list (string * Profile.t) :=
  build_profiles all_practice (unique (map PracticeRow.Driver all_practice)).

Definition driver_scores_of (all_practice : list PracticeRow.t) : list (string * Profile.t) :=
  normalize (profiles_of all_practice).

Definition calculate_prediction_score (practice_data : list (list PracticeRow.t))
    (qualifying_data : list QualRow.t) : result (list Prediction.t) :=
  (all_practice <- pd_concat practice_data ;;
   drivers <- column_Driver all_practice ;;
   let driver_scores := normalize (build_profiles all_practice (unique drivers)) in
   sort_values_FinalScore (final_rows driver_scores qualifying_data))%result.

(** ** Vocabulary of the specification *)

(** The values of a column that are defined. *)
Fixpoint defined (column : list (option Q)) : list Q :=
  match column with
  | [] => []
  | Some x :: rest => x :: defined rest
  | None :: rest => defined rest
  end.

Definition arithmetic_mean (values : list Q) : Q :=
  Qsum values / inject_Z (Z.of_nat (List.length values)).

(** The sessions of a driver that count for the weighted average: those
    with a fastest lap. *)
Definition has_fastest_lap (row : PracticeRow.t) : bool :=
  match PracticeRow.FastestLap row with Some _ => true | None => false end.

Definition fastest_lap_seconds (row : PracticeRow.t) : Q :=
  match PracticeRow.FastestLap row with Some t => t | None => 0 end.

(** Sum of time times weight over sum of weight, over the given sessions. *)
Definition weighted_average (sessions : list PracticeRow.t) : Q :=
  Qsum (map (fun row => fastest_lap_seconds row * session_weight (PracticeRow.Session row)) sessions)
  / Qsum (map (fun row => session_weight (PracticeRow.Session row)) sessions).

(** A final row is exactly what lines 125-137 build from a qualifying row
    whose driver has an entry in [driver_scores]. *)
Definition final_row (q : QualRow.t) (data : Profile.t) : Prediction.t :=
  Prediction.mk (QualRow.Driver q) (QualRow.QualifyingPosition q)
    (Profile.PracticeScore data)
    (QualRow.QualifyingPosition q * 0.6 + Profile.PracticeScore data * 0.4 / 100)
    (Profile.AvgFastestLap data) (Profile.Consistency data).

(** The order in which the ranking is returned. *)
Definition score_le (a b : Prediction.t) : Prop :=
  Prediction.FinalScore a <= Prediction.FinalScore b.

(** ** The worked example of three drivers *)

Module Example3.
Definition fp (d : string) (fastest consistency : Q) : PracticeRow.t :=
    PracticeRow.mk d (Some fastest) (Some (fastest + 1)) (Some consistency) 20 "FP2".
Definition practice_data : list (list PracticeRow.t) :=
    [[fp "A" 90.0 0.2; fp "B" 90.5 0.3; fp "C" 91.0 0.1]].
Definition qualifying_data : list QualRow.t :=
    [QualRow.mk "B" 1 None None None; QualRow.mk "A" 2 None None None;
     QualRow.mk "C" 3 None None None].
Definition summary (r : Prediction.t) : string * Q * Q :=
    (Prediction.Driver r, Qred (Prediction.PracticeScore r), Qred (Prediction.FinalScore r)).
End Example3.


(** * The session summarizer and the qualifying extractor *)

(** One record of [session.laps]: the lap time is a [Timedelta], here its
    number of nanoseconds, or [NaT] for a lap that was not completed. *)
Module Lap.
Record t : Type := mk {
    Driver : string;
    LapTime : option Z
  }.
End Lap.

(** One record of [qualifying.results]; the stage times are [Timedelta]
    values in nanoseconds. *)
Module ResultRow.
Record t : Type := mk {
    Abbreviation : string;
    Position : Q;
    Q1 : option Z;
    Q2 : option Z;
    Q3 : option Z
  }.
End ResultRow.

(** [Timedelta.total_seconds()]: the days, seconds and microseconds of the
    duration, as a float; what is below a microsecond is dropped. *)
Definition total_seconds (td : Z) : Q := (td / 1000) # 1000000.

(** [x.total_seconds() if pd.notna(x) else None]. *)
Definition seconds_or_None (x : option Z) : option Q := option_map total_seconds x.

(** [Series.min()] of a column of durations without missing values;
    [NaT] for an empty column. *)
Definition series_min (times : list Z) : option Z :=
  match times with
  | [] => None
  | t :: ts => Some (fold_left Z.min ts t)
  end.

(** [Series.mean()]: the sum over the count as a float, converted to a
    [Timedelta] by [np.int64], which drops the fraction of a
    nanosecond. *)
Definition series_mean (times : list Z) : option Z :=
  match times with
  | [] => None
  | _ :: _ =>
      Some (Z.quot (fold_right Z.add 0%Z times) (Z.of_nat (List.length times)))
  end.

(** [nanops.nanvar] with [ddof=1] on the nanosecond values as floats: the
    squared deviations from their mean, summed and divided by
    [count - 1]. *)
Definition nanvar (times : list Z) : Q :=
  let values := map inject_Z times in
  let avg := Qsum values / inject_Z (Z.of_nat (List.length values)) in
  Qsum (map (fun v => (avg - v) * (avg - v)) values)
  / inject_Z (Z.of_nat (List.length values) - 1).

(** [Series.std()]: [np.sqrt] of the variance, converted to a [Timedelta]
    by [np.int64]: the integer part of the square root, which is the
    integer square root of the integer part of the variance.  [NaT] for
    fewer than two values. *)
Definition series_std (times : list Z) : option Z :=
  match times with
  | [] | [_] => None
  | _ :: _ :: _ => Some (Z.sqrt (Qfloor (nanvar times)))
  end.

(** [lap_times[lap_times['LapTime'].notna()]]. *)
Definition valid_laps (lap_times : list Lap.t) : list Lap.t :=
  filter (fun lap => match Lap.LapTime lap with Some _ => true | None => false end) lap_times.

(** [valid_laps[valid_laps['Driver'] == driver]]. *)
Definition driver_laps (valid : list Lap.t) (driver : string) : list Lap.t :=
  filter (fun lap => String.eqb (Lap.Driver lap) driver) valid.

(** The column [driver_laps['LapTime']]: its present values. *)
Fixpoint LapTime_column (laps : list Lap.t) : list Z :=
  match laps with
  | [] => []
  | lap :: rest =>
      match Lap.LapTime lap with
      | Some t => t :: LapTime_column rest
      | None => LapTime_column rest
      end
  end.

(** Lines 24-40: the loop over the drivers of the valid laps. *)
Fixpoint summarize_drivers (session_name : string) (valid : list Lap.t)
    (drivers : list string) : list PracticeRow.t :=
  match drivers with
  | [] => []
  | driver :: rest =>
      let laps := driver_laps valid driver in
      if (0 <? Z.of_nat (List.length laps))%Z then
        let fastest_lap := series_min (LapTime_column laps) in
        let avg_lap := series_mean (LapTime_column laps) in
        let consistency := series_std (LapTime_column laps) in
        let total_laps := Z.of_nat (List.length laps) in
        PracticeRow.mk driver (seconds_or_None fastest_lap) (seconds_or_None avg_lap)
          (seconds_or_None consistency) total_laps session_name
        :: summarize_drivers session_name valid rest
      else summarize_drivers session_name valid rest
  end.

(** Lines 18-42: the frame built from the laps of a loaded session. *)
Definition summarize (session_name : string) (lap_times : list Lap.t) : list PracticeRow.t :=
  let valid := valid_laps lap_times in
  summarize_drivers session_name valid (unique (map Lap.Driver valid)).

(** Lines 56-68: one row per row of the results. *)
Definition extract_qualifying (results : list ResultRow.t) : list QualRow.t :=
  map (fun row => QualRow.mk (ResultRow.Abbreviation row) (ResultRow.Position row)
                    (seconds_or_None (ResultRow.Q1 row))
                    (seconds_or_None (ResultRow.Q2 row))
                    (seconds_or_None (ResultRow.Q3 row))) results.

(** ** Vocabulary for the summarizer *)

(** A number of nanoseconds as seconds, exactly. *)
Definition seconds (ns : Z) : Q := ns # 1000000000.

(** A number of seconds cut down to whole microseconds. *)
Definition cut_to_microseconds (x : Q) : Q := Qfloor (x * 1000000) # 1000000.

(** The valid laps of a driver in a session: their durations in
    nanoseconds, and the same in seconds. *)
Definition valid_lap_durations (lap_times : list Lap.t) (driver : string) : list Z :=
  flat_map (fun lap => match Lap.LapTime lap with Some t => [t] | None => [] end)
    (filter (fun lap => String.eqb (Lap.Driver lap) driver) lap_times).

Definition valid_lap_times (lap_times : list Lap.t) (driver : string) : list Q :=
  map seconds (valid_lap_durations lap_times driver).

(** The sample variance of a list of values, from the sum of the values
    and the sum of their squares. *)
Definition sample_variance (values : list Q) : Q :=
  let n := inject_Z (Z.of_nat (List.length values)) in
  (n * Qsum (map (fun x => x * x) values) - Qsum values * Qsum values) / (n * (n - 1)).

(** The row of a driver with the given valid lap durations. *)
Definition summary_row (session_name : string) (driver : string) (durations : list Z)
  : PracticeRow.t :=
  PracticeRow.mk driver (seconds_or_None (series_min durations))
    (seconds_or_None (series_mean durations)) (seconds_or_None (series_std durations))
    (Z.of_nat (List.length durations)) session_name.

(** * Programs that print and may raise *)

(** The state is the text written to standard output so far, one entry
    per [print]; it survives an exception. *)
Definition IO (A : Type) : Type := list string -> result A * list string.

Definition ret {A} (a : A) : IO A := fun out => (Ok a, out).

Definition bind {A B} (m : IO A) (k : A -> IO B) : IO B :=
  fun out =>
    match m out with
    | (Ok a, out') => k a out'
    | (Raise e, out') => (Raise e, out')
    end.

Definition print (line : string) : IO unit := fun out => (Ok tt, (out ++ [line])%list).

Definition lift {A} (r : result A) : IO A := fun out => (r, out).

(** [try: body except Exception as e: handler(e)]. *)
Definition try_except {A} (body : IO A) (handler : exn -> IO A) : IO A :=
  fun out =>
    match body out with
    | (Ok a, out') => (Ok a, out')
    | (Raise e, out') => handler e out'
    end.

(** Running a program from an empty output. *)
Definition run {A} (m : IO A) : result A * list string := m [].

Declare Scope io_scope.
Delimit Scope io_scope with io.
Notation "x <- m ;; k" := (bind m (fun x => k))
  (at level 61, m at next level, right associativity) : io_scope.
Notation "m ;; k" := (bind m (fun _ => k))
  (at level 61, right associativity) : io_scope.

(** [str(e)]: the message, and for [KeyError] the quoted key. *)
Definition str (e : exn) : string :=
  match e with
  | KeyError key => "'" ++ key ++ "'"
  | ValueError msg | IndexError msg | ProviderError msg => msg
  end.

(** ** The external data provider *)

(** A session object: [load()] may raise; afterwards the laps and the
    results can be read. *)
Module SessionObj.
Record t : Type := mk {
    load : option exn;
    laps : list Lap.t;
    results : list ResultRow.t
  }.
End SessionObj.

(** The module [fastf1] as the script uses it. *)
Module Provider.
Record t : Type := mk {
    get_session : Z -> string -> string -> result SessionObj.t;
    get_event_schedule : Z -> result string
  }.
End Provider.

Definition session_load (session : SessionObj.t) : IO unit :=
  match SessionObj.load session with
  | Some e => lift (Raise e)
  | None => ret tt
  end.

(** ** Formatting *)

Definition str_Z (n : Z) : string := NilZero.string_of_int (Z.to_int n).

Fixpoint spaces (n : nat) : string :=
  match n with
  | O => ""
  | S n' => String " " (spaces n')
  end.

(** Right alignment in a field, the default for numbers. *)
Definition pad_left (width : nat) (s : string) : string :=
  spaces (width - String.length s) ++ s.

(** Left alignment in a field, the default for strings. *)
Definition pad_right (width : nat) (s : string) : string :=
  s ++ spaces (width - String.length s).

(** Nearest integer of a non-negative rational, ties to even. *)
Definition round_half_even (x : Q) : Z :=
  let den := Zpos (Qden x) in
  let q := (Qnum x / den)%Z in
  let r := (Qnum x mod den)%Z in
  match (2 * r ?= den)%Z with
  | Lt => q
  | Gt => (q + 1)%Z
  | Eq => if Z.even q then q else (q + 1)%Z
  end.

Fixpoint zeros (n : nat) : string :=
  match n with
  | O => ""
  | S n' => String "0" (zeros n')
  end.

(** [format(x, '.<digits>f')]. *)
Definition format_f (digits : nat) (x : Q) : string :=
  let scale := (10 ^ Z.of_nat digits)%Z in
  let n := round_half_even (Qabs x * inject_Z scale) in
  let whole := str_Z (n / scale) in
  let frac := str_Z (n mod scale) in
  (if Qlt_le_dec x 0 then "-" else "")
  ++ whole
  ++ match digits with
     | O => ""
     | _ => "." ++ zeros (digits - String.length frac) ++ frac
     end.

(** [', '.join(items)]. *)
Fixpoint join (sep : string) (items : list string) : string :=
  match items with
  | [] => ""
  | [s] => s
  | s :: rest => s ++ sep ++ join sep rest
  end.

(** [s[:n]]. *)
Definition prefix (n : nat) (s : string) : string := substring 0 n s.

Definition out_of_bounds : exn := IndexError "single positional indexer is out-of-bounds".

(** [df.iloc[i]]. *)
Definition iloc {A} (df : list A) (i : nat) : result A :=
  match nth_error df i with
  | Some row => Ok row
  | None => Raise out_of_bounds
  end.

Definition nl : string := String (ascii_of_nat 10) "".

(** [s * n]. *)
Fixpoint times (s : string) (n : nat) : string :=
  match n with
  | O => ""
  | S n' => s ++ times s n'
  end.

(** * The functions of the script that talk to the provider *)

Section Pipeline.

Variable fastf1 : Provider.t.

Local Open Scope io_scope.

Definition get_session_data (year : Z) (gp_name session_name : string)
  : IO (list PracticeRow.t) :=
  try_except
    (session <- lift (Provider.get_session fastf1 year gp_name session_name) ;;
     session_load session ;;
     let lap_times := SessionObj.laps session in
     ret (summarize session_name lap_times))
    (fun e =>
       print ("Error loading " ++ session_name ++ ": " ++ str e) ;;
       ret []).

Definition get_qualifying_positions (year : Z) (gp_name : string)
  : IO (list QualRow.t) :=
  try_except
    (qualifying <- lift (Provider.get_session fastf1 year gp_name "Q") ;;
     session_load qualifying ;;
     let results := SessionObj.results qualifying in
     ret (extract_qualifying results))
    (fun e =>
       print ("Error loading qualifying: " ++ str e) ;;
       ret []).

(** Lines 153-162: the first name under which the provider knows the event. *)
Fixpoint find_gp_name (year : Z) (possible_gp_names : list string) : IO (option string) :=
  match possible_gp_names with
  | [] => ret None
  | name :: rest =>
      found <- try_except
                 (_ <- lift (Provider.get_session fastf1 year name "FP1") ;;
                  print ("Found GP data using name: '" ++ name ++ "'") ;;
                  ret true)
                 (fun e =>
                    print ("❌ '" ++ name ++ "' not found: " ++ prefix 100 (str e) ++ "...") ;;
                    ret false) ;;
      if found then ret (Some name) else find_gp_name year rest
  end.

(** Lines 180-187: [practice_data] grows by the non-empty frames. *)
Fixpoint load_practice (year : Z) (gp_name : string) (practice_sessions : list string)
    (practice_data : list (list PracticeRow.t)) : IO (list (list PracticeRow.t)) :=
  match practice_sessions with
  | [] => ret practice_data
  | session :: rest =>
      print ("Loading " ++ session ++ "...") ;;
      data <- get_session_data year gp_name session ;;
      match data with
      | _ :: _ =>
          print (session ++ ": " ++ str_Z (Z.of_nat (List.length data)) ++ " drivers loaded") ;;
          load_practice year gp_name rest (practice_data ++ [data])%list
      | [] =>
          print ("No data available for " ++ session) ;;
          load_practice year gp_name rest practice_data
      end
  end.

(** Lines 213-221: one line per row of [top_10], numbered from [i]. *)
Fixpoint print_rows (i : Z) (top : list Prediction.t) : IO unit :=
  match top with
  | [] => ret tt
  | row :: rest =>
      let fastest_lap_str := format_f 3 (Prediction.AvgFastestLap row) ++ "s" in
      let consistency_str := format_f 3 (Prediction.Consistency row) ++ "s" in
      print (pad_left 2 (str_Z i) ++ ". " ++ pad_right 3 (Prediction.Driver row) ++ " | "
             ++ "Qual: P" ++ pad_left 2 (format_f 0 (Prediction.QualifyingPosition row)) ++ " | "
             ++ "Avg Fast Lap: " ++ fastest_lap_str ++ " | "
             ++ "Consistency: ±" ++ consistency_str ++ " | "
             ++ "Score: " ++ format_f 2 (Prediction.FinalScore row)) ;;
      print_rows (i + 1) rest
  end.

(** [[data['Session'].iloc[0] for data in practice_data]]. *)
Fixpoint first_sessions (practice_data : list (list PracticeRow.t)) : result (list string) :=
  match practice_data with
  | [] => Ok []
  | data :: rest =>
      (row <- iloc data 0 ;;
       names <- first_sessions rest ;;
       Ok (PracticeRow.Session row :: names))%result
  end.

(** Lines 208-241: the report on a non-empty ranking. *)
Definition report (practice_data : list (list PracticeRow.t))
    (predictions : list Prediction.t) : IO (option (list Prediction.t)) :=
  print (nl ++ "🏆 RACE WINNER PREDICTIONS") ;;
  print (times "=" 50) ;;
  let top_10 := firstn 10 predictions in
  print_rows 1 top_10 ;;
  winner <- lift (iloc predictions 0) ;;
  print (nl ++ "PREDICTED WINNER: " ++ Prediction.Driver winner) ;;
  print ("   Starting Position: P" ++ format_f 0 (Prediction.QualifyingPosition winner)) ;;
  print ("   Average Fastest Lap: " ++ format_f 3 (Prediction.AvgFastestLap winner) ++ "s") ;;
  second <- lift (iloc predictions 1) ;;
  print ("   Prediction Confidence: "
         ++ format_f 1 ((1 - (Prediction.FinalScore winner - Prediction.FinalScore second) / 10) * 100)
         ++ "%") ;;
  print (nl ++ "🏅 PREDICTED PODIUM:") ;;
  first <- lift (iloc predictions 0) ;;
  print ("   🥇 1st: " ++ Prediction.Driver first) ;;
  second' <- lift (iloc predictions 1) ;;
  print ("   🥈 2nd: " ++ Prediction.Driver second') ;;
  third <- lift (iloc predictions 2) ;;
  print ("   🥉 3rd: " ++ Prediction.Driver third) ;;
  print (nl ++ "📋 Analysis based on:") ;;
  sessions <- lift (first_sessions practice_data) ;;
  print ("   • Practice Sessions: " ++ join ", " sessions) ;;
  print "   • Qualifying Results" ;;
  print "   • Lap Time Consistency" ;;
  print "   • Session Reliability" ;;
  ret (Some predictions).

Definition predict_race_winner : IO (option (list Prediction.t)) :=
  print "🏁 F1 British GP 2025 Race Winner Prediction" ;;
  print (times "=" 50) ;;
  let year := 2025%Z in
  let possible_gp_names := ["British Grand Prix"] in
  print ("Analyzing data for British GP " ++ str_Z year ++ "...") ;;
  gp_name <- find_gp_name year possible_gp_names ;;
  match gp_name with
  | None =>
      print "Could not find British GP 2025 data." ;;
      print "Available GPs for 2025 might be:" ;;
      try_except
        (schedule <- lift (Provider.get_event_schedule fastf1 year) ;;
         print schedule)
        (fun _ => print "Could not retrieve 2025 schedule") ;;
      ret None
  | Some gp_name =>
      print (nl ++ "Loading session data for " ++ gp_name ++ "...") ;;
      let practice_sessions := ["FP1"; "FP2"; "FP3"] in
      practice_data <- load_practice year gp_name practice_sessions [] ;;
      print "Loading Qualifying..." ;;
      qualifying_data <- get_qualifying_positions year gp_name ;;
      match qualifying_data with
      | _ :: _ =>
          print ("Qualifying: " ++ str_Z (Z.of_nat (List.length qualifying_data))
                 ++ " drivers loaded")
      | [] => print "No qualifying data available"
      end ;;
      match practice_data, qualifying_data with
      | _ :: _, _ :: _ =>
          print (nl ++ "🔍 Analyzing performance data...") ;;
          predictions <- lift (calculate_prediction_score practice_data qualifying_data) ;;
          match predictions with
          | [] =>
              print "Unable to generate predictions" ;;
              ret None
          | _ :: _ => report practice_data predictions
          end
      | _, _ =>
          print "Insufficient data to make prediction" ;;
          ret None
      end
  end.

End Pipeline.

(** ** Further inputs used below *)

(** One driver with a practice profile, another one in qualifying. *)
Module NoOverlap.
Definition practice_data : list (list PracticeRow.t) :=
  [[PracticeRow.mk "VER" (Some 90.0) (Some 91.0) (Some 0.2) 20 "FP1"]].
Definition qualifying_data : list QualRow.t :=
  [QualRow.mk "HAM" 1 (Some 88.0) (Some 87.5) (Some 87.0)].
End NoOverlap.

(** A driver whose 50 laps of one session all took the same time, so
    that the standard deviation of the session is zero. *)
Module ZeroConsistency.
Definition all_practice : list PracticeRow.t :=
  [PracticeRow.mk "A" (Some 90.0) (Some 90.0) (Some 0) 50 "FP1"].
End ZeroConsistency.

(** A driver without any fastest lap next to one with two sessions, one
    of them without a consistency value. *)
Module Mixed.
Definition practice_data : list (list PracticeRow.t) :=
  [[PracticeRow.mk "A" (Some 90.0) (Some 91.0) (Some 0.2) 20 "FP1";
    PracticeRow.mk "D" None None None 3 "FP1"];
   [PracticeRow.mk "A" (Some 89.0) (Some 89.0) None 1 "FP3";
    PracticeRow.mk "D" None None None 2 "FP3"]].
Definition qualifying_data : list QualRow.t :=
  [QualRow.mk "D" 1 None None None; QualRow.mk "A" 2 None None None].
End Mixed.

(** Laps of a session: driver A with three valid laps, B with one valid
    lap, C with a single lap that was not completed. *)
Module SessionLaps.
Definition lap_times : list Lap.t :=
  [Lap.mk "A" (Some 90000000000%Z); Lap.mk "B" (Some 91500000000%Z); Lap.mk "A" None;
   Lap.mk "A" (Some 92000000000%Z); Lap.mk "C" None; Lap.mk "A" (Some 91000000000%Z)].
End SessionLaps.

(** * Vocabulary for the provider-facing functions *)

(** The provider fails with [e] on a session: [get_session] raises it, or
    [load] does. *)
Definition provider_raises (fastf1 : Provider.t) (year : Z) (gp_name session_name : string)
    (e : exn) : Prop :=
  Provider.get_session fastf1 year gp_name session_name = Raise e
  \/ exists session,
       Provider.get_session fastf1 year gp_name session_name = Ok session
       /\ SessionObj.load session = Some e.

(** The loaded session object, or the exception of the provider. *)
Definition fetch (fastf1 : Provider.t) (year : Z) (gp_name session_name : string)
  : result SessionObj.t :=
  (session <- Provider.get_session fastf1 year gp_name session_name ;;
   match SessionObj.load session with
   | Some e => Raise e
   | None => Ok session
   end)%result.

(** The frames that a run of [predict_race_winner] works with. *)
Definition session_frame (fastf1 : Provider.t) (year : Z)
    (gp_name session_name : string) : list PracticeRow.t :=
  match fetch fastf1 year gp_name session_name with
  | Ok session => summarize session_name (SessionObj.laps session)
  | Raise _ => []
  end.

Definition qualifying_frame (fastf1 : Provider.t) (year : Z) (gp_name : string)
  : list QualRow.t :=
  match fetch fastf1 year gp_name "Q" with
  | Ok session => extract_qualifying (SessionObj.results session)
  | Raise _ => []
  end.

Definition loaded_practice (fastf1 : Provider.t) (year : Z)
    (gp_name : string) (practice_sessions : list string) : list (list PracticeRow.t) :=
  filter (fun data => match data with [] => false | _ :: _ => true end)
    (map (session_frame fastf1 year gp_name) practice_sessions).

(** [practice_data] and [qualifying_data] of a run of
    [predict_race_winner] that has found the event. *)
Definition run_practice_data (fastf1 : Provider.t) : list (list PracticeRow.t) :=
  loaded_practice fastf1 2025 "British Grand Prix" ["FP1"; "FP2"; "FP3"].

Definition run_qualifying_data (fastf1 : Provider.t) : list QualRow.t :=
  qualifying_frame fastf1 2025 "British Grand Prix".

Definition event_found (fastf1 : Provider.t) : Prop :=
  exists session, Provider.get_session fastf1 2025 "British Grand Prix" "FP1" = Ok session.

(** A program ends with result [r], whatever has been printed before. *)
Definition result_of {A} (m : IO A) (r : result A) : Prop :=
  forall out, exists out', m out = (r, out').

(** A provider that knows one event, has no second practice session, and
    lists the first [n] of three drivers in qualifying. *)
Module ExampleProvider.
Definition lap_times : list Lap.t :=
  [Lap.mk "A" (Some 90000000000%Z); Lap.mk "B" (Some 90500000000%Z); Lap.mk "A" (Some 90400000000%Z);
   Lap.mk "C" None; Lap.mk "C" (Some 91000000000%Z); Lap.mk "B" (Some 90700000000%Z); Lap.mk "D" None].
Definition results : list ResultRow.t :=
  [ResultRow.mk "B" 1 (Some 88000000000%Z) (Some 87500000000%Z) (Some 87000000000%Z);
   ResultRow.mk "A" 2 (Some 88000000000%Z) (Some 87500000000%Z) None;
   ResultRow.mk "C" 3 (Some 88000000000%Z) None None].
Definition fastf1 (n : nat) : Provider.t :=
  Provider.mk
    (fun year gp_name session_name =>
       if String.eqb session_name "FP2"
       then Raise (ProviderError "Session type 'FP2' does not exist for this event")
       else Ok (SessionObj.mk None lap_times (firstn n results)))
    (fun year => Ok "EventName Location EventDate").
End ExampleProvider.

(** Three laps whose mean is not a whole number of microseconds. *)
Module UnevenLaps.
Definition lap_times : list Lap.t :=
  [Lap.mk "A" (Some 90000000000%Z); Lap.mk "A" (Some 90000000000%Z);
   Lap.mk "A" (Some 90100000000%Z)].
End UnevenLaps.

(** Two drivers, one of them with a mean of 80.0666... seconds. *)
Module TwoThirds.
Definition lap_times : list Lap.t :=
  [Lap.mk "B" (Some 81000000000%Z); Lap.mk "A" (Some 80000000000%Z);
   Lap.mk "A" (Some 80100000000%Z); Lap.mk "A" (Some 80100000000%Z)].
End TwoThirds.

(** * Further vocabulary *)

(** The practice frames of a list of sessions, each given by its name and
    its laps. *)
Definition summarized (sessions : list (string * list Lap.t))
  : list (list PracticeRow.t) :=
  map (fun session => summarize (fst session) (snd session)) sessions.

(** A session in which driver A drove three laps of the same duration. *)
Module SameLaps.
Definition lap_times : list Lap.t :=
  [Lap.mk "A" (Some 90000000000%Z); Lap.mk "B" (Some 91500000000%Z); Lap.mk "A" (Some 90000000000%Z);
   Lap.mk "A" (Some 90000000000%Z); Lap.mk "B" (Some 91000000000%Z)].
End SameLaps.

(** * Printed output *)

(** A program ends with result [r] after printing [lines], whatever has
    been printed before. *)
Definition emits {A} (m : IO A) (r : result A) (lines : list string) : Prop :=
  forall out, m out = (r, (out ++ lines)%list).

(** The result and the printed lines of a program do not depend on what
    has been printed before. *)
Definition regular {A} (m : IO A) : Prop :=
  exists r lines, emits m r lines.

(** The value formatted at line 227. *)
Definition confidence (winner second : Prediction.t) : Q :=
  (1 - (Prediction.FinalScore winner - Prediction.FinalScore second) / 10) * 100.

(** The line printed for a row of [top_10] at lines 217-221, and the
    lines of the table. *)
Definition row_line (i : Z) (row : Prediction.t) : string :=
  pad_left 2 (str_Z i) ++ ". " ++ pad_right 3 (Prediction.Driver row) ++ " | "
  ++ "Qual: P" ++ pad_left 2 (format_f 0 (Prediction.QualifyingPosition row)) ++ " | "
  ++ "Avg Fast Lap: " ++ (format_f 3 (Prediction.AvgFastestLap row) ++ "s") ++ " | "
  ++ "Consistency: ±" ++ (format_f 3 (Prediction.Consistency row) ++ "s") ++ " | "
  ++ "Score: " ++ format_f 2 (Prediction.FinalScore row).

Fixpoint row_lines (i : Z) (top : list Prediction.t) : list string :=
  match top with
  | [] => []
  | row :: rest => row_line i row :: row_lines (i + 1) rest
  end.

(** * The script body *)

Section Main.

Variable fastf1 : Provider.t.

(** The text of the first ten rows of a schedule, given the text of the
    whole schedule: [head(10).to_string()]. *)
Variable head_10 : string -> string.

Local Open Scope io_scope.

(** Lines 265-269: as lines 180-187, without the progress messages. *)
Fixpoint load_reference (year : Z) (gp_name : string) (sessions : list string)
    (practice_data : list (list PracticeRow.t)) : IO (list (list PracticeRow.t)) :=
  match sessions with
  | [] => ret practice_data
  | session :: rest =>
      data <- get_session_data fastf1 year gp_name session ;;
      match data with
      | _ :: _ => load_reference year gp_name rest (practice_data ++ [data])%list
      | [] => load_reference year gp_name rest practice_data
      end
  end.

(** Lines 279-280: one line per row of [top_5], numbered from [i]. *)
Fixpoint print_scores (i : Z) (top : list Prediction.t) : IO unit :=
  match top with
  | [] => ret tt
  | row :: rest =>
      print (str_Z i ++ ". " ++ Prediction.Driver row ++ " - Score: "
             ++ format_f 2 (Prediction.FinalScore row)) ;;
      print_scores (i + 1) rest
  end.

(** Lines 244-285: the body run when the file is executed as a script. *)
Definition main : IO unit :=
  try_except
    (print "🔍 Checking available F1 races for 2025..." ;;
     try_except
       (schedule <- lift (Provider.get_event_schedule fastf1 2025) ;;
        print (nl ++ "Available F1 races for 2025:") ;;
        print (head_10 schedule) ;;
        print (nl ++ times "=" 50))
       (fun e => print ("Could not retrieve schedule: " ++ str e)) ;;
     predictions <- predict_race_winner fastf1 ;;
     match predictions with
     | None =>
         print (nl ++ "Alternative: Testing with 2024 British GP data...") ;;
         print "Note: 2025 season data might not be available yet." ;;
         let year := 2024%Z in
         let gp_name := "Great Britain" in
         print (nl ++ "Loading 2024 " ++ gp_name ++ " GP data for demonstration...") ;;
         practice_data <- load_reference year gp_name ["FP1"; "FP2"; "FP3"] [] ;;
         qualifying_data <- get_qualifying_positions fastf1 year gp_name ;;
         match practice_data, qualifying_data with
         | _ :: _, _ :: _ =>
             predictions <- lift (calculate_prediction_score practice_data qualifying_data) ;;
             print (nl ++ "🏆 2024 BRITISH GP ANALYSIS (for reference)") ;;
             print (times "=" 50) ;;
             let top_5 := firstn 5 predictions in
             print_scores 1 top_5
         | _, _ => ret tt
         end
     | Some _ => ret tt
     end)
    (fun e =>
       print ("Error: " ++ str e) ;;
       print "Make sure you have fastf1 installed: pip install fastf1" ;;
       print "Note: This script requires internet connection to fetch F1 data").

End Main.

(** The lines printed by the handler of line 282. *)
Definition error_lines (e : exn) : list string :=
  ["Error: " ++ str e;
   "Make sure you have fastf1 installed: pip install fastf1";
   "Note: This script requires internet connection to fetch F1 data"].

(** The lines printed at lines 279-280. *)
Fixpoint score_lines (i : Z) (top : list Prediction.t) : list string :=
  match top with
  | [] => []
  | row :: rest =>
      (str_Z i ++ ". " ++ Prediction.Driver row ++ " - Score: "
       ++ format_f 2 (Prediction.FinalScore row))
      :: score_lines (i + 1) rest
  end.

(** [practice_data] and [qualifying_data] of the run on the 2024 event. *)
Definition reference_practice_data (fastf1 : Provider.t)
  : list (list PracticeRow.t) :=
  loaded_practice fastf1 2024 "Great Britain" ["FP1"; "FP2"; "FP3"].

Definition reference_qualifying_data (fastf1 : Provider.t) : list QualRow.t :=
  qualifying_frame fastf1 2024 "Great Britain".

(** A provider whose qualifying lists drivers that did not take part in
    practice. *)
Module Strangers.
Definition fastf1 : Provider.t :=
  Provider.mk
    (fun year gp_name session_name =>
       Ok (SessionObj.mk None ExampleProvider.lap_times
             [ResultRow.mk "X" 1 (Some 88000000000%Z) None None]))
    (fun year => Ok "EventName Location EventDate").
End Strangers.

(** A program prints [line], whatever its result. *)
Definition prints {A} (m : IO A) (line : string) : Prop :=
  exists r lines, emits m r lines /\ In line lines.

(** The line printed at line 227. *)
Definition confidence_line (winner second : Prediction.t) : string :=
  "   Prediction Confidence: " ++ format_f 1 (confidence winner second) ++ "%".

(** The lines printed at lines 245-252, before [predict_race_winner] is
    called. *)
Definition schedule_lines (fastf1 : Provider.t) (head_10 : string -> string) : list string :=
  "🔍 Checking available F1 races for 2025..."
  :: match Provider.get_event_schedule fastf1 2025 with
     | Ok schedule =>
         [nl ++ "Available F1 races for 2025:"; head_10 schedule; nl ++ times "=" 50]
     | Raise e => ["Could not retrieve schedule: " ++ str e]
     end.

(** The lines printed at lines 257-263. *)
Definition alternative_lines : list string :=
  [nl ++ "Alternative: Testing with 2024 British GP data...";
   "Note: 2025 season data might not be available yet.";
   nl ++ "Loading 2024 " ++ "Great Britain" ++ " GP data for demonstration..."].

(** The lines printed at lines 273-280, or by the handler of line 282 when
    the aggregator raises there. *)
Definition reference_lines (fastf1 : Provider.t) : list string :=
  match reference_practice_data fastf1, reference_qualifying_data fastf1 with
  | _ :: _, _ :: _ =>
      match calculate_prediction_score (reference_practice_data fastf1)
              (reference_qualifying_data fastf1) with
      | Ok predictions =>
          [nl ++ "🏆 2024 BRITISH GP ANALYSIS (for reference)"; times "=" 50]
          ++ score_lines 1 (firstn 5 predictions)
      | Raise e => error_lines e
      end
  | _, _ => []
  end.

(** * Properties of the score aggregator *)

(** ** Dictionaries and [unique] *)

Section Dictionaries.

Lemma unique_subset (x : string) (l : list string) : In x (unique l) -> In x l.
Proof.
    induction l as [|y l IH]; simpl; [tauto|].
    intros [->|H]; [now left|].
    apply filter_In in H. right. now apply IH.
Qed.

Lemma unique_complete (x : string) (l : list string) : In x l -> In x (unique l).
Proof.
    induction l as [|y l IH]; simpl; [tauto|].
    intros [->|H]; [now left|].
    destruct (String.eqb y x) eqn:E.
    - apply String.eqb_eq in E. now left.
    - right. apply filter_In. split; [now apply IH | now rewrite E].
Qed.

Lemma dict_lookup_map {V : Type} (f : V -> V) (d : list (string * V)) (key : string) :
    dict_lookup (map (fun kv => (fst kv, f (snd kv))) d) key
    = option_map f (dict_lookup d key).
Proof.
    induction d as [|[k v] d IH]; simpl; [reflexivity|].
    destruct (String.eqb k key); [reflexivity | exact IH].
Qed.

End Dictionaries.

(** ** The order of the ranking *)

Section Ordering.

Lemma insert_by_score_perm (row : Prediction.t) (l : list Prediction.t) :
    Permutation (row :: l) (insert_by_score row l).
Proof.
    induction l as [|r l IH]; simpl; [reflexivity|].
    destruct (Qle_bool _ _); [reflexivity|].
    rewrite perm_swap. now constructor.
Qed.

Lemma ascending_perm (rows : list Prediction.t) : Permutation rows (ascending rows).
Proof.
    induction rows as [|r rows IH]; simpl; [constructor|].
    rewrite <- insert_by_score_perm. now constructor.
Qed.

Lemma insert_by_score_sorted (row : Prediction.t) (l : list Prediction.t) :
    StronglySorted score_le l -> StronglySorted score_le (insert_by_score row l).
Proof.
    induction 1 as [|r l Hs IH Hall]; simpl.
    - repeat constructor.
    - destruct (Qle_bool _ _) eqn:E.
      + apply Qle_bool_iff in E.
        constructor; [now constructor|].
        constructor; [exact E|].
        eapply Forall_impl; [|exact Hall].
        intros b Hb. unfold score_le in *. now apply Qle_trans with (Prediction.FinalScore r).
      + constructor; [exact IH|].
        assert (Hlt : score_le r row).
        { unfold score_le. apply Qlt_le_weak, Qnot_le_lt.
          intros H. apply Qle_bool_iff in H. congruence. }
        eapply Permutation_Forall; [apply insert_by_score_perm|].
        now constructor.
Qed.

Lemma ascending_sorted (rows : list Prediction.t) : StronglySorted score_le (ascending rows).
Proof.
    induction rows as [|r rows IH]; simpl; [constructor|].
    now apply insert_by_score_sorted.
Qed.

End Ordering.

(** ** Minimum, mean and variance *)

Section Series.

Lemma fold_Qmin_In (ts : list Q) (t : Q) : In (fold_left Qmin ts t) (t :: ts).
Proof.
  revert t. induction ts as [|u ts IH]; intros t; cbn [fold_left]; [now left|].
  destruct (IH (Qmin t u)) as [H|H]; [|right; now right].
  rewrite <- H. unfold Qmin, GenericMinMax.gmin.
  destruct (t ?= u); [now left | now left | right; now left].
Qed.

Lemma fold_Qmin_le_init (ts : list Q) (t : Q) : fold_left Qmin ts t <= t.
Proof.
  revert t. induction ts as [|u ts IH]; intros t; cbn [fold_left]; [apply Qle_refl|].
  eapply Qle_trans; [apply IH | apply Q.le_min_l].
Qed.

Lemma fold_Qmin_le (ts : list Q) (t x : Q) : In x (t :: ts) -> fold_left Qmin ts t <= x.
Proof.
  revert t. induction ts as [|u ts IH]; intros t.
  - intros [<-|[]]. apply Qle_refl.
  - cbn [fold_left]. intros [<-|[<-|H]].
    + eapply Qle_trans; [apply fold_Qmin_le_init | apply Q.le_min_l].
    + eapply Qle_trans; [apply fold_Qmin_le_init | apply Q.le_min_r].
    + apply IH. now right.
Qed.

Lemma Qsum_lower_bound (m : Q) (l : list Q) :
  (forall t, In t l -> m <= t) -> m * inject_Z (Z.of_nat (List.length l)) <= Qsum l.
Proof.
  induction l as [|x l IH]; intros Hm.
  - unfold Qsum. cbn [List.length fold_right]. change (inject_Z (Z.of_nat 0)) with 0. lra.
  - cbn [List.length Qsum fold_right]. fold (Qsum l).
    rewrite Nat2Z.inj_succ, <- Z.add_1_r, inject_Z_plus.
    assert (H1 : m <= x) by (apply Hm; now left).
    assert (H2 : m * inject_Z (Z.of_nat (List.length l)) <= Qsum l)
      by (apply IH; intros t Ht; apply Hm; now right).
    change (inject_Z 1) with 1. lra.
Qed.

Lemma length_pos_Q {A : Type} (l : list A) :
  l <> [] -> 0 < inject_Z (Z.of_nat (List.length l)).
Proof.
  intros H. destruct l; [contradiction|].
  change 0 with (inject_Z 0). rewrite <- Zlt_Qlt. cbn [List.length]. lia.
Qed.

(** The mean of a non-empty list is at least each of its lower bounds. *)
Lemma mean_lower_bound (m : Q) (l : list Q) :
  l <> [] -> (forall t, In t l -> m <= t) -> m <= arithmetic_mean l.
Proof.
  intros Hne Hm. unfold arithmetic_mean.
  apply Qle_shift_div_l; [now apply length_pos_Q | now apply Qsum_lower_bound].
Qed.


End Series.

(** ** The practice profiles *)

Section Profiles.

Variable all_practice : list PracticeRow.t.

Lemma collect_fastest_included (rows : list PracticeRow.t) :
  collect_fastest rows
  = (map fastest_lap_seconds (filter has_fastest_lap rows),
     map (fun row => session_weight (PracticeRow.Session row)) (filter has_fastest_lap rows)).
Proof.
  induction rows as [|row rows IH]; [reflexivity|].
  cbn [collect_fastest filter]. rewrite IH.
  destruct (PracticeRow.FastestLap row) as [t|] eqn:E.
  - assert (Hh : has_fastest_lap row = true) by (unfold has_fastest_lap; now rewrite E).
    assert (Hs : fastest_lap_seconds row = t) by (unfold fastest_lap_seconds; now rewrite E).
    rewrite Hh. cbn [map]. now rewrite Hs.
  - assert (Hh : has_fastest_lap row = false) by (unfold has_fastest_lap; now rewrite E).
    now rewrite Hh.
Qed.

Lemma multiply_map {A : Type} (f g : A -> Q) (l : list A) :
  multiply (map f l) (map g l) = map (fun x => f x * g x) l.
Proof.
  induction l as [|x l IH]; simpl; [reflexivity | now rewrite IH].
Qed.

Lemma consistency_scores_defined (rows : list PracticeRow.t) :
  consistency_scores rows = defined (map PracticeRow.Consistency rows).
Proof.
  induction rows as [|row rows IH]; simpl; [reflexivity|].
  destruct (PracticeRow.Consistency row); now rewrite IH.
Qed.

(** What the first loop stores for a driver, in the words of the
    specification. *)
Lemma practice_profile_spec (driver : string) :
  let rows := rows_of all_practice driver in
  practice_profile all_practice driver
  = match filter has_fastest_lap rows with
    | [] => None
    | _ :: _ =>
        Some (Profile.mk
                (weighted_average (filter has_fastest_lap rows))
                (match defined (map PracticeRow.Consistency rows) with
                 | [] => 10.0
                 | _ :: _ => arithmetic_mean (defined (map PracticeRow.Consistency rows))
                 end)
                (fold_right Z.add 0%Z (map PracticeRow.TotalLaps rows))
                0)
    end.
Proof.
  intros rows. unfold practice_profile. fold rows.
  rewrite collect_fastest_included, consistency_scores_defined.
  destruct (filter has_fastest_lap rows) as [|r0 incl] eqn:E; [reflexivity|].
  cbn [map]. f_equal. f_equal.
  unfold np_average, weighted_average. cbn [map multiply].
  now rewrite multiply_map.
Qed.

Lemma practice_profile_appears (driver : string) (p : Profile.t) :
  practice_profile all_practice driver = Some p ->
  In driver (map PracticeRow.Driver all_practice).
Proof.
  rewrite practice_profile_spec. cbv zeta.
  destruct (filter has_fastest_lap (rows_of all_practice driver)) as [|row l] eqn:E;
    [discriminate|].
  intros _.
  assert (H : In row (filter has_fastest_lap (rows_of all_practice driver)))
    by (rewrite E; now left).
  apply filter_In in H as [H _]. apply filter_In in H as [H Hd].
  apply String.eqb_eq in Hd. subst driver. now apply in_map.
Qed.

Lemma lookup_build_profiles (drivers : list string) (driver : string) :
  dict_lookup (build_profiles all_practice drivers) driver
  = if in_dec string_dec driver drivers then practice_profile all_practice driver else None.
Proof.
  induction drivers as [|d drivers IH]; [reflexivity|].
  cbn [build_profiles].
  destruct (string_dec d driver) as [->|Hne].
  - destruct (in_dec string_dec driver (driver :: drivers)) as [_|n];
      [|exfalso; apply n; now left].
    destruct (practice_profile all_practice driver) eqn:E.
    + cbn [dict_lookup]. now rewrite String.eqb_refl.
    + rewrite IH. now destruct (in_dec string_dec driver drivers).
  - assert (Hsame : (if in_dec string_dec driver (d :: drivers)
                     then practice_profile all_practice driver else None)
                    = (if in_dec string_dec driver drivers
                       then practice_profile all_practice driver else None)).
    { destruct (in_dec string_dec driver (d :: drivers)) as [[H|H]|n];
        destruct (in_dec string_dec driver drivers) as [i|n']; try reflexivity;
        try contradiction.
      exfalso. apply n. now right. }
    rewrite Hsame, <- IH.
    destruct (practice_profile all_practice d); [|reflexivity].
    cbn [dict_lookup].
    destruct (String.eqb d driver) eqn:E; [|reflexivity].
    apply String.eqb_eq in E. contradiction.
Qed.

Lemma lookup_profiles_of (driver : string) :
  dict_lookup (profiles_of all_practice) driver = practice_profile all_practice driver.
Proof.
  unfold profiles_of. rewrite lookup_build_profiles.
  destruct (in_dec string_dec driver _) as [_|n]; [reflexivity|].
  destruct (practice_profile all_practice driver) eqn:E; [|reflexivity].
  exfalso. apply n, unique_complete. eapply practice_profile_appears; eassumption.
Qed.

Lemma lookup_normalize (driver_scores : list (string * Profile.t)) (driver : string) :
  dict_lookup (normalize driver_scores) driver
  = option_map (score_profile (fastest_overall driver_scores))
      (dict_lookup driver_scores driver).
Proof.
  destruct driver_scores as [|kv rest]; [reflexivity|].
  unfold normalize. apply dict_lookup_map.
Qed.

(** The entry of a driver at line 119: the profile of the first loop with
    its practice score filled in. *)
Lemma lookup_driver_scores (driver : string) :
  dict_lookup (driver_scores_of all_practice) driver
  = option_map (score_profile (fastest_overall (profiles_of all_practice)))
      (practice_profile all_practice driver).
Proof.
  unfold driver_scores_of. now rewrite lookup_normalize, lookup_profiles_of.
Qed.

End Profiles.

(** ** The fastest profile *)

(** No profile is faster than [fastest_overall], so no lap time score is
    negative. *)
Lemma fastest_overall_least (driver_scores : list (string * Profile.t)) (driver : string)
    (data : Profile.t) :
  In (driver, data) driver_scores ->
  fastest_overall driver_scores <= Profile.AvgFastestLap data.
Proof.
  intros Hin. unfold fastest_overall.
  assert (H : In (Profile.AvgFastestLap data)
                (map (fun kv => Profile.AvgFastestLap (snd kv)) driver_scores))
    by (apply in_map_iff; now exists (driver, data)).
  destruct (map (fun kv => Profile.AvgFastestLap (snd kv)) driver_scores) as [|x xs];
    [contradiction|].
  now apply fold_Qmin_le.
Qed.

(** ** The rows of the ranking *)

Section Ranking.

Lemma final_rows_nil (qualifying_data : list QualRow.t) : final_rows [] qualifying_data = [].
Proof.
  induction qualifying_data as [|q qd IH]; [reflexivity | exact IH].
Qed.

Lemma final_rows_In (driver_scores : list (string * Profile.t))
    (qualifying_data : list QualRow.t) (r : Prediction.t) :
  In r (final_rows driver_scores qualifying_data) <->
  exists q data, In q qualifying_data
                 /\ dict_lookup driver_scores (QualRow.Driver q) = Some data
                 /\ r = final_row q data.
Proof.
  induction qualifying_data as [|q0 qd IH]; cbn [final_rows].
  - split; [intros [] | intros (q & data & [] & _)].
  - destruct (dict_lookup driver_scores (QualRow.Driver q0)) as [data0|] eqn:E.
    + cbn [In]. rewrite IH. split.
      * intros [<-|(q & data & Hq & Hl & ->)].
        -- exists q0, data0. repeat split; [now left | exact E].
        -- exists q, data. repeat split; [now right | exact Hl].
      * intros (q & data & [->|Hq] & Hl & ->).
        -- left. rewrite E in Hl. now injection Hl as ->.
        -- right. now exists q, data.
    + rewrite IH. split.
      * intros (q & data & Hq & Hl & ->). exists q, data. repeat split; [now right | exact Hl].
      * intros (q & data & [->|Hq] & Hl & ->); [congruence|]. now exists q, data.
Qed.

Lemma calculate_prediction_score_unfold (practice_data : list (list PracticeRow.t))
    (qualifying_data : list QualRow.t) :
  final_rows (driver_scores_of (List.concat practice_data)) qualifying_data <> [] ->
  calculate_prediction_score practice_data qualifying_data
  = Ok (ascending (final_rows (driver_scores_of (List.concat practice_data)) qualifying_data)).
Proof.
  intros Hne. unfold calculate_prediction_score, pd_concat.
  destruct practice_data as [|frame frames].
  - exfalso. apply Hne. apply final_rows_nil.
  - cbn [rbind]. unfold column_Driver.
    destruct (List.concat (frame :: frames)) as [|row rows] eqn:E.
    + exfalso. apply Hne. apply final_rows_nil.
    + cbn [rbind]. fold (profiles_of (row :: rows)). fold (driver_scores_of (row :: rows)).
      unfold sort_values_FinalScore.
      destruct (final_rows (driver_scores_of (row :: rows)) qualifying_data);
        [contradiction | reflexivity].
Qed.

Lemma calculate_prediction_score_Ok (practice_data : list (list PracticeRow.t))
    (qualifying_data : list QualRow.t) (ranking : list Prediction.t) :
  calculate_prediction_score practice_data qualifying_data = Ok ranking ->
  final_rows (driver_scores_of (List.concat practice_data)) qualifying_data <> []
  /\ ranking = ascending (final_rows (driver_scores_of (List.concat practice_data)) qualifying_data).
Proof.
  unfold calculate_prediction_score, pd_concat.
  destruct practice_data as [|frame frames]; [discriminate|].
  cbn [rbind]. unfold column_Driver.
  destruct (List.concat (frame :: frames)) as [|row rows] eqn:E; [discriminate|].
  cbn [rbind]. fold (profiles_of (row :: rows)). fold (driver_scores_of (row :: rows)).
  unfold sort_values_FinalScore.
  destruct (final_rows (driver_scores_of (row :: rows)) qualifying_data) eqn:F;
    [discriminate|].
  intros [= <-]. split; [discriminate | reflexivity].
Qed.

(** The aggregator never returns an empty frame: without a final row the
    sort by ['FinalScore'] raises. *)
Lemma calculate_prediction_score_nonempty (practice_data : list (list PracticeRow.t))
    (qualifying_data : list QualRow.t) (ranking : list Prediction.t) :
  calculate_prediction_score practice_data qualifying_data = Ok ranking -> ranking <> [].
Proof.
  intros H. apply calculate_prediction_score_Ok in H as [Hne ->].
  intros E. apply Hne. apply Permutation_nil. rewrite <- E.
  apply Permutation_sym, ascending_perm.
Qed.

(** Without a driver on both sides the aggregator raises. *)
Lemma no_overlap_raises (practice_data : list (list PracticeRow.t))
    (qualifying_data : list QualRow.t) :
  (forall q, In q qualifying_data ->
             dict_lookup (driver_scores_of (List.concat practice_data)) (QualRow.Driver q) = None) ->
  exists e, calculate_prediction_score practice_data qualifying_data = Raise e.
Proof.
  intros Hno.
  destruct (calculate_prediction_score practice_data qualifying_data) as [ranking|e] eqn:E;
    [|now exists e].
  exfalso. apply calculate_prediction_score_Ok in E as [Hne _].
  destruct (final_rows _ qualifying_data) as [|r rows] eqn:F; [now apply Hne|].
  assert (Hin : In r (final_rows (driver_scores_of (List.concat practice_data)) qualifying_data))
    by (rewrite F; now left).
  apply final_rows_In in Hin as (q & data & Hq & Hl & _).
  rewrite (Hno q Hq) in Hl. discriminate.
Qed.

(** A returned ranking holds exactly the drivers with a qualifying row and
    a practice profile. *)
Lemma ranking_drivers (practice_data : list (list PracticeRow.t))
    (qualifying_data : list QualRow.t) (ranking : list Prediction.t) (driver : string) :
  calculate_prediction_score practice_data qualifying_data = Ok ranking ->
  In driver (map Prediction.Driver ranking) <->
  In driver (map QualRow.Driver qualifying_data)
  /\ dict_lookup (driver_scores_of (List.concat practice_data)) driver <> None.
Proof.
  intros H. apply calculate_prediction_score_Ok in H as [_ ->].
  rewrite in_map_iff. split.
  - intros (r & <- & Hr).
    apply (Permutation_in _ (Permutation_sym (ascending_perm _))) in Hr.
    apply final_rows_In in Hr as (q & data & Hq & Hl & ->). cbn. split.
    + now apply in_map.
    + congruence.
  - intros [Hq Hl]. apply in_map_iff in Hq as (q & <- & Hq).
    destruct (dict_lookup _ (QualRow.Driver q)) as [data|] eqn:E; [|contradiction].
    exists (final_row q data). split; [reflexivity|].
    apply (Permutation_in _ (ascending_perm _)).
    apply final_rows_In. now exists q, data.
Qed.

Lemma sorted_head_least (first : Prediction.t) (rest : list Prediction.t) (r : Prediction.t) :
  StronglySorted score_le (first :: rest) -> In r (first :: rest) -> score_le first r.
Proof.
  intros Hs [<-|Hr].
  - unfold score_le. apply Qle_refl.
  - apply StronglySorted_inv in Hs as [_ Hall].
    rewrite Forall_forall in Hall. now apply Hall.
Qed.

End Ranking.

(** * The score aggregator: formula, order and overlap *)

(** C1: whenever some driver has both a practice profile and a qualifying
    row, the aggregator returns a ranking; every such driver has a row in
    it whose final score is grid position times 0.6 plus practice score
    times 0.4 over 100; every row of the ranking satisfies that formula;
    the ranking is in ascending order of final score, so that its first row
    has the lowest final score. *)
Theorem final_score_and_order (practice_data : list (list PracticeRow.t))
    (qualifying_data : list QualRow.t) :
  (exists q, In q qualifying_data
             /\ dict_lookup (driver_scores_of (List.concat practice_data)) (QualRow.Driver q)
                <> None) ->
  exists ranking,
    calculate_prediction_score practice_data qualifying_data = Ok ranking
    /\ (forall q data,
          In q qualifying_data ->
          dict_lookup (driver_scores_of (List.concat practice_data)) (QualRow.Driver q)
          = Some data ->
          exists r, In r ranking
                    /\ Prediction.Driver r = QualRow.Driver q
                    /\ Prediction.QualifyingPosition r = QualRow.QualifyingPosition q
                    /\ Prediction.PracticeScore r = Profile.PracticeScore data
                    /\ Prediction.FinalScore r
                       = QualRow.QualifyingPosition q * 0.6
                         + Profile.PracticeScore data * 0.4 / 100)
    /\ (forall r, In r ranking ->
                  Prediction.FinalScore r
                  = Prediction.QualifyingPosition r * 0.6
                    + Prediction.PracticeScore r * 0.4 / 100)
    /\ StronglySorted score_le ranking
    /\ (forall first rest r,
          ranking = first :: rest -> In r ranking ->
          Prediction.FinalScore first <= Prediction.FinalScore r).
Proof.
  intros (q0 & Hq0 & Hl0).
  set (rows := final_rows (driver_scores_of (List.concat practice_data)) qualifying_data).
  assert (Hne : rows <> []).
  { destruct (dict_lookup _ (QualRow.Driver q0)) as [data0|] eqn:E; [|contradiction].
    assert (Hin : In (final_row q0 data0) rows)
      by (apply final_rows_In; now exists q0, data0).
    intros Hnil. rewrite Hnil in Hin. contradiction. }
  exists (ascending rows). split; [now apply calculate_prediction_score_unfold|].
  split; [|split; [|split]].
  - intros q data Hq Hl. exists (final_row q data).
    split; [|now cbn].
    apply (Permutation_in _ (ascending_perm _)).
    apply final_rows_In. now exists q, data.
  - intros r Hr.
    apply (Permutation_in _ (Permutation_sym (ascending_perm _))) in Hr.
    apply final_rows_In in Hr as (q & data & _ & _ & ->). reflexivity.
  - apply ascending_sorted.
  - intros first rest r Heq Hr.
    apply (sorted_head_least first rest r); rewrite <- Heq; [apply ascending_sorted | exact Hr].
Qed.

Lemma final_score_and_order_witness :
  exists ranking,
    calculate_prediction_score Example3.practice_data Example3.qualifying_data = Ok ranking
    /\ StronglySorted score_le ranking.
Proof.
  destruct (final_score_and_order Example3.practice_data Example3.qualifying_data)
    as (ranking & Hok & _ & _ & Hsorted & _).
  - exists (QualRow.mk "B" 1 None None None). split; [now left|].
    vm_compute. discriminate.
  - exists ranking. split; [exact Hok | exact Hsorted].
Defined.

(** C5, at an input without a driver on both sides, and at an empty
    qualifying frame: the aggregator does not return an empty ranking, it
    raises [KeyError: 'FinalScore']. *)
Theorem no_overlap_KeyError :
  calculate_prediction_score NoOverlap.practice_data NoOverlap.qualifying_data
  = Raise (KeyError "FinalScore")
  /\ calculate_prediction_score NoOverlap.practice_data [] = Raise (KeyError "FinalScore").
Proof.
  split; vm_compute; reflexivity.
Qed.

(** ** Profiles: weights, weighted average, consistency *)

Lemma has_fastest_lap_filter_nil (rows : list PracticeRow.t) :
  filter has_fastest_lap rows = [] <->
  (forall row, In row rows -> PracticeRow.FastestLap row = None).
Proof.
  split.
  - intros Hnil row Hin.
    destruct (PracticeRow.FastestLap row) as [t|] eqn:E; [|reflexivity].
    assert (H : In row (filter has_fastest_lap rows)).
    { apply filter_In. split; [exact Hin|]. unfold has_fastest_lap. now rewrite E. }
    rewrite Hnil in H. contradiction.
  - intros Hall. destruct (filter has_fastest_lap rows) as [|row l] eqn:E; [reflexivity|].
    assert (H : In row (filter has_fastest_lap rows)) by (rewrite E; now left).
    apply filter_In in H as [Hin Hf]. unfold has_fastest_lap in Hf.
    rewrite (Hall row Hin) in Hf. discriminate.
Qed.

Lemma rows_of_In (all_practice : list PracticeRow.t) (driver : string) (row : PracticeRow.t) :
  In row (rows_of all_practice driver) <->
  In row all_practice /\ PracticeRow.Driver row = driver.
Proof.
  unfold rows_of. rewrite filter_In. now rewrite String.eqb_eq.
Qed.

(** C2: a driver with at least one session whose fastest lap is defined
    gets a profile whose average fastest lap is the sum of time times
    weight over the sum of the weights, both taken over the driver's
    sessions with a defined fastest lap; a driver without any defined
    fastest lap gets no profile and is in no ranking the aggregator
    returns. *)
Theorem weighted_average_fastest_lap (practice_data : list (list PracticeRow.t))
    (driver : string) :
  ((exists row, In row (List.concat practice_data)
                /\ PracticeRow.Driver row = driver
                /\ PracticeRow.FastestLap row <> None) ->
   exists p,
     dict_lookup (driver_scores_of (List.concat practice_data)) driver = Some p
     /\ Profile.AvgFastestLap p
        = weighted_average
            (filter has_fastest_lap (rows_of (List.concat practice_data) driver)))
  /\ ((forall row, In row (List.concat practice_data) ->
                   PracticeRow.Driver row = driver ->
                   PracticeRow.FastestLap row = None) ->
      dict_lookup (driver_scores_of (List.concat practice_data)) driver = None
      /\ forall qualifying_data ranking,
           calculate_prediction_score practice_data qualifying_data = Ok ranking ->
           ~ In driver (map Prediction.Driver ranking)).
Proof.
  set (all_practice := List.concat practice_data).
  split.
  - intros (row & Hin & Hd & Hf).
    rewrite lookup_driver_scores, practice_profile_spec. cbv zeta.
    destruct (filter has_fastest_lap (rows_of all_practice driver)) as [|r l] eqn:E.
    + exfalso. apply Hf.
      apply (proj1 (has_fastest_lap_filter_nil _) E). now apply rows_of_In.
    + eexists. split; reflexivity.
  - intros Hnone.
    assert (Hl : dict_lookup (driver_scores_of all_practice) driver = None).
    { rewrite lookup_driver_scores, practice_profile_spec. cbv zeta.
      replace (filter has_fastest_lap (rows_of all_practice driver)) with (@nil PracticeRow.t);
        [reflexivity|].
      symmetry. apply has_fastest_lap_filter_nil.
      intros row Hr. apply rows_of_In in Hr as [Hin Hd]. now apply Hnone. }
    split; [exact Hl|].
    intros qualifying_data ranking Hok Hin.
    apply (ranking_drivers _ _ _ driver Hok) in Hin as [_ Hsome].
    now apply Hsome.
Qed.

Lemma weighted_average_fastest_lap_witness :
  (exists p,
     dict_lookup (driver_scores_of (List.concat Mixed.practice_data)) "A" = Some p
     /\ Profile.AvgFastestLap p == 89.3)
  /\ dict_lookup (driver_scores_of (List.concat Mixed.practice_data)) "D" = None.
Proof.
  split.
  - destruct (proj1 (weighted_average_fastest_lap Mixed.practice_data "A")) as (p & Hl & Ha).
    + exists (PracticeRow.mk "A" (Some 90.0) (Some 91.0) (Some 0.2) 20 "FP1").
      split; [now left | split; [reflexivity | discriminate]].
    + exists p. split; [exact Hl|]. rewrite Ha. vm_compute. reflexivity.
  - apply (proj2 (weighted_average_fastest_lap Mixed.practice_data "D")).
    intros row Hin Hd. vm_compute in Hin.
    repeat (destruct Hin as [<-|Hin]; [first [reflexivity | discriminate Hd]|]).
    contradiction.
Defined.

(** C3, as stated, fails: a session name that is not in the table, here
    the provider's name of the sprint qualifying, has weight 0.2 and not
    0.25. *)
Lemma unrecognized_session_weight_counterexample :
  dict_lookup session_weights "Sprint Shootout" = None
  /\ ~ session_weight "Sprint Shootout" == 0.25.
Proof.
  split; [reflexivity|]. vm_compute. discriminate.
Qed.

(** C3, amended: the weight is 0.15 for FP1, 0.25 for FP2, 0.35 for FP3,
    0.25 for the name Sprint, and 0.2 for every other session name. *)
Theorem session_weight_table (session : string) :
  session <> "FP1" -> session <> "FP2" -> session <> "FP3" -> session <> "Sprint" ->
  session_weight "FP1" = 0.15
  /\ session_weight "FP2" = 0.25
  /\ session_weight "FP3" = 0.35
  /\ session_weight "Sprint" = 0.25
  /\ session_weight session = 0.2.
Proof.
  intros H1 H2 H3 H4. repeat (split; [reflexivity|]).
  unfold session_weight, session_weights. cbn [dict_get].
  repeat match goal with
         | |- context [String.eqb ?a session] =>
             destruct (String.eqb_spec a session) as [E|_]; [now subst|]
         end.
  reflexivity.
Qed.

Lemma session_weight_table_witness : session_weight "Q" = 0.2.
Proof.
  apply (session_weight_table "Q"); discriminate.
Defined.

(** The consistency stored for a driver. *)
Lemma profile_consistency (all_practice : list PracticeRow.t) (driver : string)
    (p : Profile.t) :
  dict_lookup (driver_scores_of all_practice) driver = Some p ->
  Profile.Consistency p
  = match defined (map PracticeRow.Consistency (rows_of all_practice driver)) with
    | [] => 10.0
    | _ :: _ => arithmetic_mean (defined (map PracticeRow.Consistency (rows_of all_practice driver)))
    end.
Proof.
  rewrite lookup_driver_scores, practice_profile_spec. cbv zeta.
  destruct (filter has_fastest_lap (rows_of all_practice driver)); [discriminate|].
  cbn [option_map]. now intros [= <-].
Qed.

(** C6: the consistency of a driver's profile is the arithmetic mean of
    the defined consistency values of the driver's sessions, and 10.0 if
    no session has one. *)
Theorem average_consistency (all_practice : list PracticeRow.t) (driver : string)
    (p : Profile.t) :
  dict_lookup (driver_scores_of all_practice) driver = Some p ->
  (defined (map PracticeRow.Consistency (rows_of all_practice driver)) = [] ->
   Profile.Consistency p = 10.0)
  /\ (defined (map PracticeRow.Consistency (rows_of all_practice driver)) <> [] ->
      Profile.Consistency p
      = arithmetic_mean (defined (map PracticeRow.Consistency (rows_of all_practice driver)))).
Proof.
  intros Hl. rewrite (profile_consistency _ _ _ Hl).
  destruct (defined (map PracticeRow.Consistency (rows_of all_practice driver)));
    split; intros H; congruence.
Qed.

Lemma average_consistency_witness :
  exists p, dict_lookup (driver_scores_of (List.concat Mixed.practice_data)) "A" = Some p
            /\ Profile.Consistency p == 0.2.
Proof.
  destruct (dict_lookup (driver_scores_of (List.concat Mixed.practice_data)) "A")
    as [p|] eqn:E; [|vm_compute in E; discriminate].
  exists p. split; [reflexivity|].
  destruct (average_consistency _ _ _ E) as [_ H].
  rewrite H; [|vm_compute; discriminate].
  vm_compute. reflexivity.
Defined.

(** ** The divisions of step 1 are by positive numbers *)

Lemma session_weight_pos (session : string) : 0 < session_weight session.
Proof.
  unfold session_weight, session_weights. cbn [dict_get].
  repeat match goal with
         | |- context [String.eqb ?a session] => destruct (String.eqb a session)
         end; reflexivity.
Qed.

Lemma weight_sum_pos (sessions : list PracticeRow.t) :
  sessions <> [] ->
  0 < Qsum (map (fun row => session_weight (PracticeRow.Session row)) sessions).
Proof.
  induction sessions as [|row rest IH]; [contradiction|]. intros _.
  cbn [map Qsum fold_right].
  fold (Qsum (map (fun row => session_weight (PracticeRow.Session row)) rest)).
  pose proof (session_weight_pos (PracticeRow.Session row)) as Hw.
  destruct rest as [|row' rest'].
  - unfold Qsum. cbn [map fold_right]. lra.
  - assert (H : 0 < Qsum (map (fun row => session_weight (PracticeRow.Session row))
                            (row' :: rest'))) by (apply IH; discriminate).
    lra.
Qed.

(** ** The worked example *)

(** Practice scores -20, 490 and 970, final scores 1.12, 2.56 and 5.68 (in
    lowest terms 28/25, 64/25 and 142/25), and the order A, B, C. *)
Example example3_ranking :
  exists ranking,
    calculate_prediction_score Example3.practice_data Example3.qualifying_data = Ok ranking
    /\ map Example3.summary ranking
       = [("A", -20, 28 # 25); ("B", 490, 64 # 25); ("C", 970, 142 # 25)].
Proof.
  eexists. split; vm_compute; reflexivity.
Qed.

(** ** The practice score *)

Lemma consistency_score_zero (c : Q) : c == 0 -> consistency_score c = 500.
Proof.
  intros H. unfold consistency_score, truthy.
  now rewrite (Qeq_eq_bool _ _ H).
Qed.

Lemma consistency_score_nonzero (c : Q) : ~ c == 0 -> consistency_score c = c * 100.
Proof.
  intros H. unfold consistency_score, truthy.
  destruct (Qeq_bool c 0) eqn:E; [|reflexivity].
  exfalso. now apply H, Qeq_bool_eq.
Qed.

Lemma reliability_score_full (total_laps : Z) :
  (50 <= total_laps)%Z -> reliability_score total_laps == 1.
Proof.
  intros H. unfold reliability_score.
  rewrite Q.min_r; [reflexivity|].
  apply Qle_shift_div_l; [reflexivity|].
  rewrite Zle_Qle in H. eapply Qle_trans; [|exact H].
  apply Qle_bool_iff. reflexivity.
Qed.

(** C4, as stated, fails: the mean of the session consistencies of this
    driver is zero, which is false in the conditional of line 115, so the
    consistency score is 500 and the practice score is 400 and not -100. *)
Lemma zero_consistency_counterexample :
  exists p,
    dict_lookup (driver_scores_of ZeroConsistency.all_practice) "A" = Some p
    /\ Profile.AvgFastestLap p == fastest_overall (profiles_of ZeroConsistency.all_practice)
    /\ Profile.Consistency p == 0
    /\ (50 <= Profile.TotalLaps p)%Z
    /\ ~ consistency_score (Profile.Consistency p) == Profile.Consistency p * 100
    /\ ~ Profile.PracticeScore p == -100.
Proof.
  eexists. split; [vm_compute; reflexivity|].
  repeat split; vm_compute; discriminate.
Qed.

(** C4, amended: the 500 branch is taken exactly when the consistency of
    the profile is zero, and never through the 10.0 default.  For a
    non-zero consistency the practice score is the lap time score plus
    consistency times 100 minus reliability times 100; for a zero
    consistency it is the lap time score plus 500 minus reliability times
    100; so a driver at the fastest overall time with zero consistency and
    at least 50 laps has practice score 0 + 500 - 100 = 400. *)
Theorem practice_score_cases (all_practice : list PracticeRow.t) (driver : string)
    (p : Profile.t) :
  dict_lookup (driver_scores_of all_practice) driver = Some p ->
  let lap_time_score :=
    (Profile.AvgFastestLap p - fastest_overall (profiles_of all_practice)) * 1000 in
  let reliability := reliability_score (Profile.TotalLaps p) in
  (~ Profile.Consistency p == 0 ->
   Profile.PracticeScore p
   == lap_time_score + Profile.Consistency p * 100 - reliability * 100)
  /\ (Profile.Consistency p == 0 ->
      Profile.PracticeScore p == lap_time_score + 500 - reliability * 100)
  /\ (defined (map PracticeRow.Consistency (rows_of all_practice driver)) = [] ->
      consistency_score (Profile.Consistency p) == 1000)
  /\ (Profile.Consistency p == 0 ->
      Profile.AvgFastestLap p == fastest_overall (profiles_of all_practice) ->
      (50 <= Profile.TotalLaps p)%Z ->
      Profile.PracticeScore p == 400).
Proof.
  intros Hl. pose proof (profile_consistency _ _ _ Hl) as Hcons.
  revert Hl. rewrite lookup_driver_scores.
  destruct (practice_profile all_practice driver) as [p0|]; [|discriminate].
  cbn [option_map]. intros [= <-].
  cbn [score_profile Profile.Consistency Profile.AvgFastestLap Profile.TotalLaps
       Profile.PracticeScore] in *.
  cbv zeta. split; [|split; [|split]].
  - intros Hnz. now rewrite (consistency_score_nonzero _ Hnz).
  - intros Hz. now rewrite (consistency_score_zero _ Hz).
  - intros Hnone. rewrite Hcons, Hnone. reflexivity.
  - intros Hz Hfast Hlaps.
    rewrite (consistency_score_zero _ Hz), (reliability_score_full _ Hlaps), Hfast.
    ring.
Qed.

Lemma practice_score_cases_witness :
  exists p,
    dict_lookup (driver_scores_of ZeroConsistency.all_practice) "A" = Some p
    /\ Profile.PracticeScore p == 400.
Proof.
  destruct (dict_lookup (driver_scores_of ZeroConsistency.all_practice) "A")
    as [p|] eqn:E; [|vm_compute in E; discriminate].
  exists p. split; [reflexivity|].
  apply (practice_score_cases _ _ _ E).
  - injection E as <-. vm_compute. reflexivity.
  - injection E as <-. vm_compute. reflexivity.
  - injection E as <-. vm_compute. discriminate.
Defined.

(** * The session summarizer *)

Section Durations.

Lemma fold_Zmin_In (ts : list Z) (t : Z) : In (fold_left Z.min ts t) (t :: ts).
Proof.
  revert t. induction ts as [|u ts IH]; intros t; cbn [fold_left]; [now left|].
  destruct (IH (Z.min t u)) as [H|H]; [|right; now right].
  rewrite <- H. destruct (Z.min_dec t u) as [E|E]; rewrite E; [now left | right; now left].
Qed.

Lemma fold_Zmin_le (ts : list Z) (t x : Z) :
  In x (t :: ts) -> (fold_left Z.min ts t <= x)%Z.
Proof.
  assert (Hinit : forall l a, (fold_left Z.min l a <= a)%Z).
  { induction l as [|b l IHl]; intros a; cbn [fold_left]; [lia|].
    specialize (IHl (Z.min a b)). lia. }
  revert t. induction ts as [|u ts IH]; intros t.
  - intros [<-|[]]. cbn. lia.
  - cbn [fold_left]. intros [<-|[<-|H]].
    + specialize (Hinit ts (Z.min t u)). lia.
    + specialize (Hinit ts (Z.min t u)). lia.
    + apply IH. now right.
Qed.

Lemma Zsum_lower_bound (m : Z) (l : list Z) :
  (forall t, In t l -> (m <= t)%Z) ->
  (m * Z.of_nat (List.length l) <= fold_right Z.add 0 l)%Z.
Proof.
  induction l as [|x l IH]; intros Hm; cbn [fold_right List.length]; [lia|].
  assert (H1 : (m <= x)%Z) by (apply Hm; now left).
  assert (H2 : (m * Z.of_nat (List.length l) <= fold_right Z.add 0 l)%Z)
    by (apply IH; intros t Ht; apply Hm; now right).
  lia.
Qed.


Lemma seconds_inj (a b : Z) : seconds a == seconds b -> a = b.
Proof.
  unfold seconds, Qeq. cbn [Qnum Qden]. lia.
Qed.

Lemma seconds_inject_Z (a : Z) : seconds a == inject_Z a / 1000000000.
Proof.
  unfold seconds. rewrite (Qmake_Qdiv a 1000000000). reflexivity.
Qed.

Lemma total_seconds_le (a b : Z) : (a <= b)%Z -> total_seconds a <= total_seconds b.
Proof.
  intros H. unfold total_seconds, Qle. cbn [Qnum Qden].
  apply Z.mul_le_mono_nonneg_r; [lia|]. apply Z.div_le_mono; lia.
Qed.



(** A number cut down to whole microseconds is at most the number and
    less than a microsecond below it. *)
Lemma cut_to_microseconds_bounds (x : Q) :
  cut_to_microseconds x <= x /\ x < cut_to_microseconds x + (1 # 1000000).
Proof.
  unfold cut_to_microseconds.
  pose proof (Qfloor_le (x * 1000000)) as Hle.
  pose proof (Qlt_floor (x * 1000000)) as Hlt.
  rewrite inject_Z_plus in Hlt. change (inject_Z 1) with 1 in Hlt.
  rewrite (Qmake_Qdiv (Qfloor (x * 1000000)) 1000000).
  change (inject_Z (Zpos 1000000)) with 1000000.
  split.
  - apply Qle_shift_div_r; [reflexivity | exact Hle].
  - setoid_replace (inject_Z (Qfloor (x * 1000000)) / 1000000 + (1 # 1000000))
      with ((inject_Z (Qfloor (x * 1000000)) + 1) / 1000000) by field.
    apply Qlt_shift_div_l; [reflexivity | exact Hlt].
Qed.

Lemma Qsum_seconds (ds : list Z) :
  Qsum (map seconds ds) == inject_Z (fold_right Z.add 0%Z ds) / 1000000000.
Proof.
  induction ds as [|d ds IH].
  - reflexivity.
  - cbn [map Qsum fold_right]. fold (Qsum (map seconds ds)).
    rewrite IH, seconds_inject_Z, inject_Z_plus. field.
Qed.

(** The mean that the summarizer stores, for durations that are not
    negative: the arithmetic mean in seconds, cut down to whole
    microseconds. *)
Lemma mean_total_seconds (ds : list Z) :
  ds <> [] -> (forall d, In d ds -> (0 <= d)%Z) ->
  total_seconds (Z.quot (fold_right Z.add 0%Z ds) (Z.of_nat (List.length ds)))
  = cut_to_microseconds (arithmetic_mean (map seconds ds)).
Proof.
  intros Hne Hpos.
  assert (Hn : (0 < Z.of_nat (List.length ds))%Z) by (destruct ds; [contradiction | cbn; lia]).
  assert (Hs : (0 <= fold_right Z.add 0 ds)%Z).
  { pose proof (Zsum_lower_bound 0 ds Hpos). lia. }
  rewrite Z.quot_div_nonneg by lia.
  unfold total_seconds, cut_to_microseconds. f_equal.
  rewrite Z.div_div by lia.
  rewrite (Qfloor_comp (arithmetic_mean (map seconds ds) * 1000000)
             (inject_Z (fold_right Z.add 0%Z ds)
              / inject_Z (Z.of_nat (List.length ds) * 1000))).
  - now rewrite <- Zdiv_Qdiv.
  - unfold arithmetic_mean. rewrite Qsum_seconds, length_map, inject_Z_mult.
    change (inject_Z 1000) with 1000.
    field. intros H. rewrite <- (Qmult_0_l 1) in H. 
    apply (Qlt_irrefl 0). rewrite <- H at 2.
    change 0 with (inject_Z 0). rewrite <- Zlt_Qlt. exact Hn.
Qed.

Lemma Qsum_deviations (a : Q) (xs : list Q) :
  Qsum (map (fun v => (a - v) * (a - v)) xs)
  == inject_Z (Z.of_nat (List.length xs)) * a * a - 2 * a * Qsum xs
     + Qsum (map (fun x => x * x) xs).
Proof.
  induction xs as [|x xs IH].
  - unfold Qsum. cbn [map fold_right List.length]. change (inject_Z (Z.of_nat 0)) with 0. ring.
  - cbn [map Qsum fold_right List.length].
    fold (Qsum (map (fun v => (a - v) * (a - v)) xs)).
    fold (Qsum xs). fold (Qsum (map (fun x => x * x) xs)).
    rewrite IH, Nat2Z.inj_succ, <- Z.add_1_r, inject_Z_plus.
    change (inject_Z 1) with 1. ring.
Qed.

(** The variance computed in two passes is the sample variance. *)
Lemma nanvar_sample_variance (ds : list Z) :
  (2 <= List.length ds)%nat -> nanvar ds == sample_variance (map inject_Z ds).
Proof.
  intros Hlen. unfold nanvar, sample_variance. cbv zeta.
  rewrite Qsum_deviations. unfold Z.sub. rewrite inject_Z_plus, inject_Z_opp.
  change (inject_Z 1) with 1.
  set (n := inject_Z (Z.of_nat (List.length (map inject_Z ds)))).
  assert (Hn : 2 <= n).
  { unfold n. rewrite length_map. change 2 with (inject_Z 2). rewrite <- Zle_Qle. lia. }
  field. repeat split; intros H; lra.
Qed.




End Durations.

Section SummarizerRows.

Lemma unique_NoDup (l : list string) : NoDup (unique l).
Proof.
  induction l as [|x l IH]; cbn [unique]; constructor.
  - intros H. apply filter_In in H as [_ H]. now rewrite String.eqb_refl in H.
  - now apply NoDup_filter.
Qed.

(** Selecting the valid laps first, as the code does, does not change the
    durations of a driver. *)
Lemma driver_laps_times (lap_times : list Lap.t) (driver : string) :
  LapTime_column (driver_laps (valid_laps lap_times) driver)
  = valid_lap_durations lap_times driver.
Proof.
  unfold valid_lap_durations, driver_laps, valid_laps.
  induction lap_times as [|lap laps IH]; [reflexivity|].
  cbn [filter].
  destruct (Lap.LapTime lap) as [t|] eqn:E; cbn [filter];
    destruct (String.eqb (Lap.Driver lap) driver); cbn [LapTime_column flat_map];
    rewrite ?E, ?IH; reflexivity.
Qed.

Lemma driver_laps_length (lap_times : list Lap.t) (driver : string) :
  List.length (driver_laps (valid_laps lap_times) driver)
  = List.length (valid_lap_durations lap_times driver).
Proof.
  unfold valid_lap_durations, driver_laps, valid_laps.
  induction lap_times as [|lap laps IH]; [reflexivity|].
  cbn [filter].
  destruct (Lap.LapTime lap) as [t|] eqn:E; cbn [filter];
    destruct (String.eqb (Lap.Driver lap) driver); cbn [flat_map List.length];
    rewrite ?E; cbn [app List.length]; rewrite ?IH; reflexivity.
Qed.

Lemma valid_lap_times_nil (lap_times : list Lap.t) (driver : string) :
  valid_lap_times lap_times driver = [] <-> valid_lap_durations lap_times driver = [].
Proof.
  unfold valid_lap_times. split; [apply map_eq_nil | intros ->; reflexivity].
Qed.

Lemma valid_driver_has_durations (lap_times : list Lap.t) (driver : string) :
  In driver (map Lap.Driver (valid_laps lap_times)) <->
  valid_lap_durations lap_times driver <> [].
Proof.
  unfold valid_lap_durations, valid_laps.
  induction lap_times as [|lap laps IH]; cbn [filter map flat_map].
  - split; [intros [] | intros H; now apply H].
  - destruct (Lap.LapTime lap) as [t|] eqn:E;
      destruct (String.eqb_spec (Lap.Driver lap) driver) as [Hd|Hd];
      cbn [map flat_map In]; rewrite ?E.
    + split; [discriminate | now left].
    + rewrite <- IH. split; [intros [H|H]; [contradiction | exact H] | now right].
    + exact IH.
    + exact IH.
Qed.

Lemma valid_driver_has_times (lap_times : list Lap.t) (driver : string) :
  In driver (map Lap.Driver (valid_laps lap_times)) <->
  valid_lap_times lap_times driver <> [].
Proof.
  rewrite valid_driver_has_durations. now rewrite valid_lap_times_nil.
Qed.

Lemma summarize_drivers_In (session_name : string) (valid : list Lap.t)
    (drivers : list string) (row : PracticeRow.t) :
  In row (summarize_drivers session_name valid drivers) <->
  exists driver,
    In driver drivers
    /\ driver_laps valid driver <> []
    /\ row = PracticeRow.mk driver
               (seconds_or_None (series_min (LapTime_column (driver_laps valid driver))))
               (seconds_or_None (series_mean (LapTime_column (driver_laps valid driver))))
               (seconds_or_None (series_std (LapTime_column (driver_laps valid driver))))
               (Z.of_nat (List.length (driver_laps valid driver))) session_name.
Proof.
  induction drivers as [|d drivers IH]; cbn [summarize_drivers].
  - split; [intros [] | intros (driver & [] & _)].
  - destruct (driver_laps valid d) as [|lap laps] eqn:E.
    + cbn [List.length Z.of_nat Z.ltb Z.compare]. rewrite IH. split.
      * intros (driver & Hin & Hne & ->). exists driver. split; [now right | now split].
      * intros (driver & [->|Hin] & Hne & ->); [congruence|]. now exists driver.
    + assert (Hpos : (0 <? Z.of_nat (List.length (lap :: laps)))%Z = true)
        by (apply Z.ltb_lt; cbn [List.length]; lia).
      rewrite Hpos. cbv zeta. cbn [In]. rewrite IH. split.
      * intros [<-|(driver & Hin & Hne & ->)].
        -- exists d. split; [now left|]. split; [congruence|]. now rewrite E.
        -- exists driver. split; [now right | now split].
      * intros (driver & [->|Hin] & Hne & ->).
        -- left. now rewrite E.
        -- right. now exists driver.
Qed.


(** The rows of the summarizer: one for each driver with a valid lap,
    computed from the durations of that driver's valid laps. *)
Lemma summarize_In (session_name : string) (lap_times : list Lap.t) (row : PracticeRow.t) :
  In row (summarize session_name lap_times) <->
  valid_lap_durations lap_times (PracticeRow.Driver row) <> []
  /\ row = summary_row session_name (PracticeRow.Driver row)
             (valid_lap_durations lap_times (PracticeRow.Driver row)).
Proof.
  unfold summarize. rewrite summarize_drivers_In. unfold summary_row. split.
  - intros (driver & Hin & _ & ->). cbn [PracticeRow.Driver].
    rewrite driver_laps_times, driver_laps_length. split; [|reflexivity].
    apply valid_driver_has_durations. now apply unique_subset.
  - intros [Hne Hrow]. exists (PracticeRow.Driver row).
    assert (Hin : In (PracticeRow.Driver row) (map Lap.Driver (valid_laps lap_times)))
      by now apply valid_driver_has_durations.
    split; [now apply unique_complete|]. split.
    + intros Hnil. apply Hne. rewrite <- driver_laps_times, Hnil. reflexivity.
    + now rewrite driver_laps_times, driver_laps_length.
Qed.

(** The row of a driver with a valid lap. *)
Lemma summarize_row (session_name : string) (lap_times : list Lap.t) (driver : string) :
  valid_lap_durations lap_times driver <> [] ->
  In (summary_row session_name driver (valid_lap_durations lap_times driver))
    (summarize session_name lap_times).
Proof.
  intros Hne. apply summarize_In. cbn [summary_row PracticeRow.Driver]. now split.
Qed.

End SummarizerRows.

Section SummarizerValues.

(** The three durations of a row, from the nanoseconds of the driver's
    valid laps. *)
Lemma summary_row_fastest (session_name driver : string) (ds : list Z) :
  ds <> [] ->
  exists fastest,
    In fastest ds
    /\ (forall d, In d ds -> (fastest <= d)%Z)
    /\ PracticeRow.FastestLap (summary_row session_name driver ds)
       = Some (total_seconds fastest).
Proof.
  intros Hne. destruct ds as [|t ts]; [contradiction|].
  exists (fold_left Z.min ts t). split; [apply fold_Zmin_In|].
  split; [intros d; apply fold_Zmin_le | reflexivity].
Qed.

Lemma summary_row_average (session_name driver : string) (ds : list Z) :
  ds <> [] ->
  PracticeRow.AverageLap (summary_row session_name driver ds)
  = Some (total_seconds (Z.quot (fold_right Z.add 0%Z ds) (Z.of_nat (List.length ds)))).
Proof.
  intros Hne. destruct ds as [|t ts]; [contradiction | reflexivity].
Qed.

Lemma fastest_le_mean (ds : list Z) (fastest : Z) :
  ds <> [] ->
  (forall d, In d ds -> (fastest <= d)%Z) ->
  (fastest <= Z.quot (fold_right Z.add 0%Z ds) (Z.of_nat (List.length ds)))%Z.
Proof.
  intros Hne Hmin.
  assert (Hn : (0 < Z.of_nat (List.length ds))%Z) by (destruct ds; [contradiction | cbn; lia]).
  pose proof (Zsum_lower_bound fastest ds Hmin) as Hf.
  destruct (Z.le_gt_cases 0 (fold_right Z.add 0%Z ds)) as [Hs|Hs].
  - rewrite Z.quot_div_nonneg by lia.
    apply Z.div_le_lower_bound; lia.
  - replace (fold_right Z.add 0%Z ds) with (- - fold_right Z.add 0%Z ds)%Z by lia.
    rewrite Z.quot_opp_l by lia. rewrite Z.quot_div_nonneg by lia.
    assert (H : (- fold_right Z.add 0 ds / Z.of_nat (List.length ds) <= - fastest)%Z)
      by (apply Z.div_le_upper_bound; lia).
    lia.
Qed.

End SummarizerValues.

Section SummarizerClaims.

Lemma seconds_nonneg_inv (d : Z) : 0 <= seconds d -> (0 <= d)%Z.
Proof.
  unfold seconds, Qle. cbn [Qnum Qden]. lia.
Qed.

Lemma durations_nonneg (ds : list Z) :
  (forall t, In t (map seconds ds) -> 0 <= t) -> forall d, In d ds -> (0 <= d)%Z.
Proof.
  intros H d Hd. apply seconds_nonneg_inv, H. now apply in_map.
Qed.




(** C8, as stated, fails: the three valid laps of this driver last 80.0,
    80.1 and 80.1 seconds; their arithmetic mean is 1201/15 seconds, and
    the average lap of the row is 80.066666. *)
Lemma average_not_the_mean_counterexample :
  exists row fastest average,
    In row (summarize "FP1" TwoThirds.lap_times)
    /\ PracticeRow.Driver row = "A"
    /\ PracticeRow.FastestLap row = Some fastest
    /\ PracticeRow.AverageLap row = Some average
    /\ average == 80.066666
    /\ ~ average == arithmetic_mean (valid_lap_times TwoThirds.lap_times "A").
Proof.
  eexists. eexists. eexists. split; [vm_compute; right; left; reflexivity|].
  split; [reflexivity|]. split; [reflexivity|]. split; [reflexivity|].
  split; [reflexivity|].
  vm_compute. discriminate.
Qed.

(** C8, amended: for every driver with a non-empty set of valid laps in a
    session, the summarizer has a row whose fastest lap is at most its
    average lap; and if none of those laps has a negative duration, the
    average lap is the arithmetic mean of their durations cut down to
    whole microseconds: at most that mean, and less than a microsecond
    below it. *)
Theorem fastest_le_average (session_name : string) (lap_times : list Lap.t)
    (driver : string) :
  valid_lap_times lap_times driver <> [] ->
  exists row fastest average,
    In row (summarize session_name lap_times)
    /\ PracticeRow.Driver row = driver
    /\ PracticeRow.FastestLap row = Some fastest
    /\ PracticeRow.AverageLap row = Some average
    /\ fastest <= average
    /\ ((forall t, In t (valid_lap_times lap_times driver) -> 0 <= t) ->
        average = cut_to_microseconds (arithmetic_mean (valid_lap_times lap_times driver))
        /\ average <= arithmetic_mean (valid_lap_times lap_times driver)
        /\ arithmetic_mean (valid_lap_times lap_times driver) < average + (1 # 1000000)).
Proof.
  intros Hne. rewrite valid_lap_times_nil in Hne. unfold valid_lap_times in *.
  set (ds := valid_lap_durations lap_times driver) in *.
  destruct (summary_row_fastest session_name driver ds Hne) as (fastest & Hin & Hmin & Hf).
  exists (summary_row session_name driver ds), (total_seconds fastest),
         (total_seconds (Z.quot (fold_right Z.add 0%Z ds) (Z.of_nat (List.length ds)))).
  split; [now apply summarize_row|]. split; [reflexivity|]. split; [exact Hf|].
  split; [now apply summary_row_average|].
  split; [apply total_seconds_le; now apply fastest_le_mean|].
  intros Hpos. pose proof (durations_nonneg ds Hpos) as Hds.
  rewrite (mean_total_seconds ds Hne Hds). split; [reflexivity|].
  apply cut_to_microseconds_bounds.
Qed.

End SummarizerClaims.

Lemma fastest_le_average_witness :
  exists row fastest average,
    In row (summarize "FP1" SessionLaps.lap_times)
    /\ PracticeRow.FastestLap row = Some fastest
    /\ PracticeRow.AverageLap row = Some average
    /\ fastest <= average
    /\ average <= arithmetic_mean (valid_lap_times SessionLaps.lap_times "A").
Proof.
  destruct (fastest_le_average "FP1" SessionLaps.lap_times "A")
    as (row & fastest & average & Hin & _ & Hf & Ha & Hle & Hmean).
  - vm_compute. discriminate.
  - exists row, fastest, average. repeat split; try assumption.
    apply Hmean. intros t Ht. vm_compute in Ht.
    repeat (destruct Ht as [<-|Ht]; [discriminate|]). contradiction.
Defined.

(** * The functions that talk to the provider *)

Section Programs.

Lemma result_of_ret {A} (a : A) : result_of (ret a) (Ok a).
Proof. intros out. now exists out. Qed.

Lemma result_of_print (line : string) : result_of (print line) (Ok tt).
Proof. intros out. now exists (out ++ [line])%list. Qed.

Lemma result_of_lift {A} (r : result A) : result_of (lift r) r.
Proof. intros out. now exists out. Qed.

Lemma result_of_bind_Ok {A B} (m : IO A) (k : A -> IO B) (a : A) (r : result B) :
  result_of m (Ok a) -> result_of (k a) r -> result_of (bind m k) r.
Proof.
  intros Hm Hk out. destruct (Hm out) as [out1 H1]. destruct (Hk out1) as [out2 H2].
  exists out2. unfold bind. now rewrite H1.
Qed.

Lemma result_of_bind_Raise {A B} (m : IO A) (k : A -> IO B) (e : exn) :
  result_of m (Raise e) -> result_of (bind m k) (Raise e).
Proof.
  intros Hm out. destruct (Hm out) as [out1 H1].
  exists out1. unfold bind. now rewrite H1.
Qed.

Lemma result_of_try_Ok {A} (body : IO A) (handler : exn -> IO A) (a : A) :
  result_of body (Ok a) -> result_of (try_except body handler) (Ok a).
Proof.
  intros Hm out. destruct (Hm out) as [out1 H1].
  exists out1. unfold try_except. now rewrite H1.
Qed.

Lemma result_of_try_Raise {A} (body : IO A) (handler : exn -> IO A) (e : exn)
    (r : result A) :
  result_of body (Raise e) -> result_of (handler e) r ->
  result_of (try_except body handler) r.
Proof.
  intros Hm Hh out. destruct (Hm out) as [out1 H1]. destruct (Hh out1) as [out2 H2].
  exists out2. unfold try_except. now rewrite H1.
Qed.

Lemma provider_raises_fetch (fastf1 : Provider.t) (year : Z) (gp_name session_name : string)
    (e : exn) :
  provider_raises fastf1 year gp_name session_name e <->
  fetch fastf1 year gp_name session_name = Raise e.
Proof.
  unfold provider_raises, fetch. split.
  - intros [H|(session & H & Hl)]; rewrite H; cbn [rbind]; [reflexivity | now rewrite Hl].
  - destruct (Provider.get_session fastf1 year gp_name session_name) as [session|e0];
      cbn [rbind].
    + destruct (SessionObj.load session) as [e0|] eqn:El; [|discriminate].
      intros [= ->]. right. now exists session.
    + intros [= ->]. now left.
Qed.

Variable fastf1 : Provider.t.

(** What [get_session_data] does, by the answer of the provider. *)
Lemma get_session_data_fetch (year : Z) (gp_name session_name : string) (out : list string) :
  get_session_data fastf1 year gp_name session_name out
  = match fetch fastf1 year gp_name session_name with
    | Ok session => (Ok (summarize session_name (SessionObj.laps session)), out)
    | Raise e => (Ok [], app out ["Error loading " ++ session_name ++ ": " ++ str e])
    end.
Proof.
  unfold get_session_data, fetch, try_except, bind, lift, session_load, print, ret.
  destruct (Provider.get_session fastf1 year gp_name session_name) as [session|e];
    cbn [rbind]; [|reflexivity].
  destruct (SessionObj.load session); reflexivity.
Qed.

Lemma get_qualifying_positions_fetch (year : Z) (gp_name : string) (out : list string) :
  get_qualifying_positions fastf1 year gp_name out
  = match fetch fastf1 year gp_name "Q" with
    | Ok session => (Ok (extract_qualifying (SessionObj.results session)), out)
    | Raise e => (Ok [], app out ["Error loading qualifying: " ++ str e])
    end.
Proof.
  unfold get_qualifying_positions, fetch, try_except, bind, lift, session_load, print, ret.
  destruct (Provider.get_session fastf1 year gp_name "Q") as [session|e];
    cbn [rbind]; [|reflexivity].
  destruct (SessionObj.load session); reflexivity.
Qed.

(** C9: when the provider raises an exception for a session, the session
    summarizer and the qualifying extractor catch it, print a diagnostic
    and return an empty frame; neither of them ever raises. *)
Theorem provider_errors_are_caught (year : Z) (gp_name session_name : string)
    (out : list string) :
  (forall e,
     provider_raises fastf1 year gp_name session_name e ->
     get_session_data fastf1 year gp_name session_name out
     = (Ok [], app out ["Error loading " ++ session_name ++ ": " ++ str e]))
  /\ (forall e,
        provider_raises fastf1 year gp_name "Q" e ->
        get_qualifying_positions fastf1 year gp_name out
        = (Ok [], app out ["Error loading qualifying: " ++ str e]))
  /\ (exists rows out',
        get_session_data fastf1 year gp_name session_name out = (Ok rows, out'))
  /\ (exists rows out',
        get_qualifying_positions fastf1 year gp_name out = (Ok rows, out')).
Proof.
  split; [|split; [|split]].
  - intros e He. apply provider_raises_fetch in He.
    now rewrite get_session_data_fetch, He.
  - intros e He. apply provider_raises_fetch in He.
    now rewrite get_qualifying_positions_fetch, He.
  - rewrite get_session_data_fetch.
    destruct (fetch fastf1 year gp_name session_name); eexists; eexists; reflexivity.
  - rewrite get_qualifying_positions_fetch.
    destruct (fetch fastf1 year gp_name "Q"); eexists; eexists; reflexivity.
Qed.

End Programs.

Lemma provider_errors_are_caught_witness :
  run (get_session_data (ExampleProvider.fastf1 3) 2025 "British Grand Prix" "FP2")
  = (Ok [], ["Error loading FP2: Session type 'FP2' does not exist for this event"]).
Proof.
  apply (proj1 (provider_errors_are_caught (ExampleProvider.fastf1 3) 2025
                  "British Grand Prix" "FP2" [])
           (ProviderError "Session type 'FP2' does not exist for this event")).
  left. reflexivity.
Defined.

Section PredictRaceWinner.

Variable fastf1 : Provider.t.

Ltac io_step lemma := eapply result_of_bind_Ok; [apply lemma | cbv beta].
Ltac io_print := io_step result_of_print.

Lemma get_session_data_result (year : Z) (gp_name session_name : string) :
  result_of (get_session_data fastf1 year gp_name session_name)
    (Ok (session_frame fastf1 year gp_name session_name)).
Proof.
  intros out. rewrite get_session_data_fetch. unfold session_frame.
  destruct (fetch fastf1 year gp_name session_name); eexists; reflexivity.
Qed.

Lemma get_qualifying_positions_result (year : Z) (gp_name : string) :
  result_of (get_qualifying_positions fastf1 year gp_name)
    (Ok (qualifying_frame fastf1 year gp_name)).
Proof.
  intros out. rewrite get_qualifying_positions_fetch. unfold qualifying_frame.
  destruct (fetch fastf1 year gp_name "Q"); eexists; reflexivity.
Qed.

Lemma load_practice_result (year : Z) (gp_name : string) (practice_sessions : list string)
    (practice_data : list (list PracticeRow.t)) :
  result_of (load_practice fastf1 year gp_name practice_sessions practice_data)
    (Ok (practice_data ++ loaded_practice fastf1 year gp_name practice_sessions)%list).
Proof.
  revert practice_data.
  induction practice_sessions as [|session rest IH]; intros practice_data;
    cbn [load_practice].
  - unfold loaded_practice. cbn [map filter]. rewrite app_nil_r. apply result_of_ret.
  - io_print. io_step get_session_data_result.
    unfold loaded_practice. cbn [map filter]. fold (loaded_practice fastf1 year gp_name rest).
    destruct (session_frame fastf1 year gp_name session) as [|row rows].
    + io_print. apply IH.
    + io_print. rewrite (app_assoc practice_data [row :: rows]
                           (loaded_practice fastf1 year gp_name rest)
                         : (practice_data ++ (row :: rows)
                              :: loaded_practice fastf1 year gp_name rest)%list = _).
      apply IH.
Qed.

Lemma loaded_practice_nonempty (year : Z) (gp_name : string) (practice_sessions : list string) :
  Forall (fun data => data <> []) (loaded_practice fastf1 year gp_name practice_sessions).
Proof.
  unfold loaded_practice. apply Forall_forall. intros data H.
  apply filter_In in H as [_ H]. now destruct data.
Qed.

Lemma first_sessions_Ok (practice_data : list (list PracticeRow.t)) :
  Forall (fun data => data <> []) practice_data ->
  exists names, first_sessions practice_data = Ok names.
Proof.
  induction 1 as [|data rest Hne _ [names IH]]; cbn [first_sessions].
  - now exists [].
  - destruct data as [|row rows]; [contradiction|].
    cbn [iloc nth_error rbind]. rewrite IH. cbn [rbind]. eexists. reflexivity.
Qed.

Lemma find_gp_name_result (year : Z) (name : string) :
  result_of (find_gp_name fastf1 year [name])
    (Ok (match Provider.get_session fastf1 year name "FP1" with
         | Ok _ => Some name
         | Raise _ => None
         end)).
Proof.
  cbn [find_gp_name].
  destruct (Provider.get_session fastf1 year name "FP1") as [session|e].
  - eapply result_of_bind_Ok with (a := true).
    + apply result_of_try_Ok. io_step (result_of_lift (Ok session)).
      io_print. apply result_of_ret.
    + apply result_of_ret.
  - eapply result_of_bind_Ok with (a := false).
    + eapply result_of_try_Raise.
      * apply result_of_bind_Raise. apply (result_of_lift (Raise e)).
      * cbv beta. io_print. apply result_of_ret.
    + apply result_of_ret.
Qed.

Lemma print_rows_result (i : Z) (top : list Prediction.t) :
  result_of (print_rows i top) (Ok tt).
Proof.
  revert i. induction top as [|row rest IH]; intros i; cbn [print_rows].
  - apply result_of_ret.
  - io_print. apply IH.
Qed.

(** How the report ends: with fewer than three rows [iloc] raises. *)
Lemma report_result (practice_data : list (list PracticeRow.t))
    (predictions : list Prediction.t) :
  predictions <> [] ->
  result_of (report practice_data predictions)
    (match predictions with
     | _ :: _ :: _ :: _ =>
         match first_sessions practice_data with
         | Ok _ => Ok (Some predictions)
         | Raise e => Raise e
         end
     | _ => Raise out_of_bounds
     end).
Proof.
  intros Hne. unfold report.
  destruct predictions as [|r1 rest]; [contradiction|].
  io_print. io_print. io_step print_rows_result.
  io_step (result_of_lift (Ok r1)). io_print. io_print. io_print.
  destruct rest as [|r2 rest].
  { apply result_of_bind_Raise. apply (result_of_lift (Raise out_of_bounds)). }
  io_step (result_of_lift (Ok r2)). io_print. io_print.
  io_step (result_of_lift (Ok r1)). io_print.
  io_step (result_of_lift (Ok r2)). io_print.
  destruct rest as [|r3 rest].
  { apply result_of_bind_Raise. apply (result_of_lift (Raise out_of_bounds)). }
  io_step (result_of_lift (Ok r3)). io_print. io_print.
  destruct (first_sessions practice_data) as [names|e].
  - io_step (result_of_lift (Ok names)). io_print. io_print. io_print. io_print.
    apply result_of_ret.
  - apply result_of_bind_Raise. apply (result_of_lift (Raise e)).
Qed.

(** The result of a run, by what the provider delivers. *)
Lemma predict_race_winner_result :
  result_of (predict_race_winner fastf1)
    (match Provider.get_session fastf1 2025 "British Grand Prix" "FP1" with
     | Raise _ => Ok None
     | Ok _ =>
         match run_practice_data fastf1, run_qualifying_data fastf1 with
         | _ :: _, _ :: _ =>
             match calculate_prediction_score (run_practice_data fastf1)
                     (run_qualifying_data fastf1) with
             | Raise e => Raise e
             | Ok [] => Ok None
             | Ok ((_ :: _ :: _ :: _) as predictions) => Ok (Some predictions)
             | Ok _ => Raise out_of_bounds
             end
         | _, _ => Ok None
         end
     end).
Proof.
  unfold predict_race_winner.
  io_print. io_print. io_print. io_step find_gp_name_result.
  destruct (Provider.get_session fastf1 2025 "British Grand Prix" "FP1") as [session|e].
  - io_print.
    io_step (load_practice_result 2025 "British Grand Prix" ["FP1"; "FP2"; "FP3"] []).
    cbn [app]. fold (run_practice_data fastf1).
    io_print. io_step get_qualifying_positions_result.
    fold (run_qualifying_data fastf1).
    pose proof (loaded_practice_nonempty 2025 "British Grand Prix" ["FP1"; "FP2"; "FP3"])
      as Hnonempty.
    fold (run_practice_data fastf1) in Hnonempty.
    destruct (run_qualifying_data fastf1) as [|q qd].
    + io_print. destruct (run_practice_data fastf1); io_print; apply result_of_ret.
    + io_print. destruct (run_practice_data fastf1) as [|frame frames] eqn:Epd.
      * io_print. apply result_of_ret.
      * io_print.
        destruct (calculate_prediction_score (frame :: frames) (q :: qd))
          as [predictions|e].
        -- io_step (result_of_lift (Ok predictions)).
           destruct predictions as [|r1 rest].
           ++ io_print. apply result_of_ret.
           ++ destruct (first_sessions_Ok _ Hnonempty) as [names Hnames].
              pose proof (report_result (frame :: frames) (r1 :: rest)) as Hreport.
              rewrite Hnames in Hreport.
              destruct rest as [|r2 [|r3 rest]]; apply Hreport; discriminate.
        -- apply result_of_bind_Raise. apply (result_of_lift (Raise e)).
  - io_print. io_print.
    eapply result_of_bind_Ok with (a := tt); [|apply result_of_ret].
    destruct (Provider.get_event_schedule fastf1 2025) as [schedule|e'].
    + apply result_of_try_Ok. io_step (result_of_lift (Ok schedule)).
      apply result_of_print.
    + eapply result_of_try_Raise.
      * apply result_of_bind_Raise. apply (result_of_lift (Raise e')).
      * apply result_of_print.
Qed.

(** C10: a run of [predict_race_winner] that returns a ranking has
    computed a ranking of at least three drivers; a run that has found
    the event and computed a ranking of exactly one or two drivers ends
    with the [IndexError] of an out-of-bounds row access and returns
    nothing; with three or more drivers it does return the ranking. *)
Theorem podium_needs_three_drivers :
  (forall ranking out,
     run (predict_race_winner fastf1) = (Ok (Some ranking), out) ->
     calculate_prediction_score (run_practice_data fastf1) (run_qualifying_data fastf1)
     = Ok ranking
     /\ (3 <= List.length ranking)%nat)
  /\ (forall ranking,
        event_found fastf1 ->
        calculate_prediction_score (run_practice_data fastf1) (run_qualifying_data fastf1)
        = Ok ranking ->
        (List.length ranking = 1 \/ List.length ranking = 2)%nat ->
        exists out, run (predict_race_winner fastf1) = (Raise out_of_bounds, out))
  /\ (forall ranking,
        event_found fastf1 ->
        calculate_prediction_score (run_practice_data fastf1) (run_qualifying_data fastf1)
        = Ok ranking ->
        (3 <= List.length ranking)%nat ->
        exists out, run (predict_race_winner fastf1) = (Ok (Some ranking), out)).
Proof.
  pose proof predict_race_winner_result as Hres.
  assert (Hinputs : forall ranking,
             calculate_prediction_score (run_practice_data fastf1)
               (run_qualifying_data fastf1) = Ok ranking ->
             run_practice_data fastf1 <> [] /\ run_qualifying_data fastf1 <> []).
  { intros ranking Hok. split; intros E; rewrite E in Hok.
    - discriminate.
    - apply calculate_prediction_score_Ok in Hok as [Hne _]. now apply Hne. }
  split; [|split].
  - intros ranking out Hrun.
    destruct (Hres []) as [out' Hout]. unfold run in Hrun. rewrite Hrun in Hout.
    injection Hout as Hout _.
    destruct (Provider.get_session fastf1 2025 "British Grand Prix" "FP1"); [|discriminate].
    destruct (run_practice_data fastf1) as [|frame frames]; [discriminate|].
    destruct (run_qualifying_data fastf1) as [|q qd]; [discriminate|].
    destruct (calculate_prediction_score (frame :: frames) (q :: qd))
      as [[|r1 [|r2 [|r3 rest]]]|e]; try discriminate.
    injection Hout as ->. split; [reflexivity | cbn [List.length]; lia].
  - intros ranking [session Hfound] Hok Hlen.
    destruct (Hinputs ranking Hok) as [Hpd Hqd].
    destruct (Hres []) as [out Hout]. exists out. unfold run. rewrite Hout. f_equal.
    rewrite Hfound, Hok.
    destruct (run_practice_data fastf1) as [|frame frames]; [contradiction|].
    destruct (run_qualifying_data fastf1) as [|q qd]; [contradiction|].
    destruct ranking as [|r1 [|r2 [|r3 rest]]]; cbn [List.length] in Hlen;
      try reflexivity; lia.
  - intros ranking [session Hfound] Hok Hlen.
    destruct (Hinputs ranking Hok) as [Hpd Hqd].
    destruct (Hres []) as [out Hout]. exists out. unfold run. rewrite Hout. f_equal.
    rewrite Hfound, Hok.
    destruct (run_practice_data fastf1) as [|frame frames]; [contradiction|].
    destruct (run_qualifying_data fastf1) as [|q qd]; [contradiction|].
    destruct ranking as [|r1 [|r2 [|r3 rest]]]; cbn [List.length] in Hlen;
      try reflexivity; lia.
Qed.

End PredictRaceWinner.

Lemma podium_needs_three_drivers_witness :
  (exists out,
     run (predict_race_winner (ExampleProvider.fastf1 2)) = (Raise out_of_bounds, out))
  /\ (exists ranking out,
        run (predict_race_winner (ExampleProvider.fastf1 3)) = (Ok (Some ranking), out)
        /\ List.length ranking = 3%nat).
Proof.
  split.
  - destruct (calculate_prediction_score (run_practice_data (ExampleProvider.fastf1 2))
                (run_qualifying_data (ExampleProvider.fastf1 2))) as [ranking|e] eqn:E;
      [|vm_compute in E; discriminate].
    apply (proj1 (proj2 (podium_needs_three_drivers (ExampleProvider.fastf1 2)))
             ranking).
    + eexists. reflexivity.
    + exact E.
    + right. vm_compute in E. injection E as <-. reflexivity.
  - destruct (calculate_prediction_score (run_practice_data (ExampleProvider.fastf1 3))
                (run_qualifying_data (ExampleProvider.fastf1 3))) as [ranking|e] eqn:E;
      [|vm_compute in E; discriminate].
    assert (Hlen : List.length ranking = 3%nat)
      by (vm_compute in E; injection E as <-; reflexivity).
    destruct (proj2 (proj2 (podium_needs_three_drivers (ExampleProvider.fastf1 3)))
                ranking) as [out Hout].
    + eexists. reflexivity.
    + exact E.
    + rewrite Hlen. apply le_n.
    + exists ranking, out. split; [exact Hout | exact Hlen].
Defined.

(** * Further properties of the score aggregator *)

Section AggregatorOutcomes.

Variable practice_data : list (list PracticeRow.t).
Variable qualifying_data : list QualRow.t.

Lemma final_rows_nil_iff (driver_scores : list (string * Profile.t)) :
  final_rows driver_scores qualifying_data = [] <->
  (forall q, In q qualifying_data -> dict_lookup driver_scores (QualRow.Driver q) = None).
Proof.
  split.
  - intros Hnil q Hq.
    destruct (dict_lookup driver_scores (QualRow.Driver q)) as [data|] eqn:E; [|reflexivity].
    assert (H : In (final_row q data) (final_rows driver_scores qualifying_data))
      by (apply final_rows_In; now exists q, data).
    rewrite Hnil in H. contradiction.
  - intros Hnone.
    destruct (final_rows driver_scores qualifying_data) as [|r rows] eqn:E; [reflexivity|].
    assert (H : In r (final_rows driver_scores qualifying_data)) by (rewrite E; now left).
    apply final_rows_In in H as (q & data & Hq & Hl & _).
    rewrite (Hnone q Hq) in Hl. discriminate.
Qed.

(** [calculate_prediction_score] by cases on its input. *)
Lemma calculate_prediction_score_cases :
  calculate_prediction_score practice_data qualifying_data
  = match practice_data with
    | [] => Raise (ValueError "No objects to concatenate")
    | _ :: _ =>
        match List.concat practice_data with
        | [] => Raise (KeyError "Driver")
        | _ :: _ =>
            match final_rows (driver_scores_of (List.concat practice_data)) qualifying_data with
            | [] => Raise (KeyError "FinalScore")
            | _ :: _ =>
                Ok (ascending (final_rows (driver_scores_of (List.concat practice_data))
                                 qualifying_data))
            end
        end
    end.
Proof.
  unfold calculate_prediction_score, pd_concat.
  destruct practice_data as [|frame frames]; [reflexivity|].
  cbn [rbind]. unfold column_Driver.
  destruct (List.concat (frame :: frames)) as [|row rows]; [reflexivity|].
  cbn [rbind]. fold (profiles_of (row :: rows)). fold (driver_scores_of (row :: rows)).
  reflexivity.
Qed.

(** X1: the aggregator raises in exactly three situations: [ValueError]
    for an empty list of practice frames, [KeyError: 'Driver'] for a
    non-empty list of frames without any row, and [KeyError: 'FinalScore']
    when there are practice rows but no qualifying row whose driver has a
    profile; it raises nothing else. *)
Theorem aggregator_errors :
  (calculate_prediction_score practice_data qualifying_data
   = Raise (ValueError "No objects to concatenate")
   <-> practice_data = [])
  /\ (calculate_prediction_score practice_data qualifying_data = Raise (KeyError "Driver")
      <-> practice_data <> [] /\ List.concat practice_data = [])
  /\ (calculate_prediction_score practice_data qualifying_data = Raise (KeyError "FinalScore")
      <-> List.concat practice_data <> []
          /\ forall q, In q qualifying_data ->
                       dict_lookup (driver_scores_of (List.concat practice_data))
                         (QualRow.Driver q) = None)
  /\ (forall e,
        calculate_prediction_score practice_data qualifying_data = Raise e ->
        e = ValueError "No objects to concatenate"
        \/ e = KeyError "Driver" \/ e = KeyError "FinalScore").
Proof.
  rewrite calculate_prediction_score_cases.
  pose proof (final_rows_nil_iff (driver_scores_of (List.concat practice_data))) as Hnil.
  destruct practice_data as [|frame frames]; cbn [List.concat].
  - split; [tauto|]. split; [|split].
    + split; [discriminate | intros [H _]; now contradiction H].
    + split; [discriminate | intros [H _]; now contradiction H].
    + intros e [= <-]. now left.
  - change (frame ++ List.concat frames)%list with (List.concat (frame :: frames)) in *.
    destruct (List.concat (frame :: frames)) as [|row rows].
    + split; [split; discriminate|]. split; [|split].
      * split; [intros _; split; [discriminate | reflexivity] | reflexivity].
      * split; [discriminate | intros [H _]; now contradiction H].
      * intros e [= <-]. right. now left.
    + destruct (final_rows (driver_scores_of (row :: rows)) qualifying_data) as [|r rs].
      * split; [split; discriminate|]. split; [|split].
        -- split; [discriminate | intros [_ H]; discriminate H].
        -- split; [intros _; split; [discriminate | now apply Hnil] | reflexivity].
        -- intros e [= <-]. right. now right.
      * split; [split; discriminate|]. split; [|split].
        -- split; [discriminate | intros [_ H]; discriminate H].
        -- split; [discriminate | intros [_ H]; apply Hnil in H; discriminate H].
        -- discriminate.
Qed.

Lemma final_rows_drivers (driver_scores : list (string * Profile.t)) :
  map Prediction.Driver (final_rows driver_scores qualifying_data)
  = filter (fun driver => match dict_lookup driver_scores driver with
                          | Some _ => true
                          | None => false
                          end)
      (map QualRow.Driver qualifying_data).
Proof.
  induction qualifying_data as [|q qd IH]; [reflexivity|].
  cbn [final_rows map filter].
  destruct (dict_lookup driver_scores (QualRow.Driver q)); cbn [map Prediction.Driver];
    now rewrite IH.
Qed.

(** X2: a returned ranking has one row for each qualifying row whose
    driver has a practice profile, a driver listed twice in qualifying
    included twice; so it is never longer than the qualifying frame. *)
Theorem ranking_rows_per_qualifying_row (ranking : list Prediction.t) :
  calculate_prediction_score practice_data qualifying_data = Ok ranking ->
  Permutation (map Prediction.Driver ranking)
    (filter (fun driver =>
               match dict_lookup (driver_scores_of (List.concat practice_data)) driver with
               | Some _ => true
               | None => false
               end)
       (map QualRow.Driver qualifying_data))
  /\ (List.length ranking <= List.length qualifying_data)%nat.
Proof.
  intros H. apply calculate_prediction_score_Ok in H as [_ ->].
  assert (Hperm : Permutation
                    (map Prediction.Driver
                       (ascending (final_rows (driver_scores_of (List.concat practice_data))
                                     qualifying_data)))
                    (map Prediction.Driver
                       (final_rows (driver_scores_of (List.concat practice_data))
                          qualifying_data)))
    by (apply Permutation_map, Permutation_sym, ascending_perm).
  rewrite final_rows_drivers in Hperm. split; [exact Hperm|].
  apply Permutation_length in Hperm. rewrite !length_map in Hperm. rewrite Hperm.
  rewrite <- (length_map QualRow.Driver qualifying_data). apply filter_length_le.
Qed.

End AggregatorOutcomes.

Lemma ranking_rows_per_qualifying_row_witness :
  exists ranking,
    calculate_prediction_score Mixed.practice_data Mixed.qualifying_data = Ok ranking
    /\ map Prediction.Driver ranking = ["A"].
Proof.
  destruct (calculate_prediction_score Mixed.practice_data Mixed.qualifying_data)
    as [ranking|e] eqn:E; [|vm_compute in E; discriminate].
  exists ranking. split; [reflexivity|].
  pose proof (proj1 (ranking_rows_per_qualifying_row _ _ _ E)) as Hperm.
  vm_compute in Hperm. symmetry in Hperm.
  now apply Permutation_length_1_inv in Hperm.
Defined.

Section ScoreBounds.

Lemma dict_lookup_In {V : Type} (d : list (string * V)) (key : string) (v : V) :
  dict_lookup d key = Some v -> In (key, v) d.
Proof.
  induction d as [|[k w] d IH]; cbn [dict_lookup]; [discriminate|].
  destruct (String.eqb_spec k key) as [->|_].
  - intros [= ->]. now left.
  - intros H. right. now apply IH.
Qed.

Lemma build_profiles_In (all_practice : list PracticeRow.t) (drivers : list string)
    (driver : string) (p : Profile.t) :
  In (driver, p) (build_profiles all_practice drivers) ->
  practice_profile all_practice driver = Some p.
Proof.
  induction drivers as [|d drivers IH]; cbn [build_profiles]; [intros []|].
  destruct (practice_profile all_practice d) as [p0|] eqn:E; [|exact IH].
  intros [[= <- <-]|H]; [exact E | now apply IH].
Qed.

Lemma fold_Qmin_attained (ts : list Q) (t : Q) : In (fold_left Qmin ts t) (t :: ts).
Proof. apply fold_Qmin_In. Qed.

(** X3: no profile is faster than [fastest_overall], and some driver's
    profile has exactly that time: every lap time score is non-negative,
    and the fastest driver's is zero. *)
Theorem fastest_overall_is_the_minimum (all_practice : list PracticeRow.t) (driver : string)
    (p : Profile.t) :
  dict_lookup (driver_scores_of all_practice) driver = Some p ->
  fastest_overall (profiles_of all_practice) <= Profile.AvgFastestLap p
  /\ exists fastest_driver p',
       dict_lookup (driver_scores_of all_practice) fastest_driver = Some p'
       /\ Profile.AvgFastestLap p' = fastest_overall (profiles_of all_practice).
Proof.
  rewrite lookup_driver_scores.
  destruct (practice_profile all_practice driver) as [p0|] eqn:E; [|discriminate].
  cbn [option_map]. intros [= <-]. cbn [score_profile Profile.AvgFastestLap].
  rewrite <- lookup_profiles_of in E. apply dict_lookup_In in E.
  split; [now apply (fastest_overall_least _ driver)|].
  unfold fastest_overall.
  destruct (profiles_of all_practice) as [|[d0 q0] rest] eqn:Eprof; [contradiction|].
  cbn [map snd].
  pose proof (fold_Qmin_attained
                (map (fun kv => Profile.AvgFastestLap (snd kv)) rest)
                (Profile.AvgFastestLap q0)) as Hin.
  change (In (py_min (Profile.AvgFastestLap q0)
                (map (fun kv => Profile.AvgFastestLap (snd kv)) rest))
            (map (fun kv => Profile.AvgFastestLap (snd kv)) ((d0, q0) :: rest))) in Hin.
  apply in_map_iff in Hin as ([d1 q1] & Hq & Hin). cbn [snd] in Hq.
  exists d1, (score_profile (fastest_overall (profiles_of all_practice)) q1).
  split; [|rewrite Eprof; unfold fastest_overall; cbn [map snd score_profile Profile.AvgFastestLap];
           exact Hq].
  rewrite lookup_driver_scores.
  rewrite <- Eprof in Hin. unfold profiles_of in Hin.
  now rewrite (build_profiles_In _ _ _ _ Hin).
Qed.

Lemma fastest_overall_is_the_minimum_witness :
  exists p, dict_lookup (driver_scores_of (List.concat Example3.practice_data)) "B" = Some p
            /\ fastest_overall (profiles_of (List.concat Example3.practice_data))
               <= Profile.AvgFastestLap p.
Proof.
  destruct (dict_lookup (driver_scores_of (List.concat Example3.practice_data)) "B")
    as [p|] eqn:E; [|vm_compute in E; discriminate].
  exists p. split; [reflexivity|].
  apply (fastest_overall_is_the_minimum _ _ _ E).
Defined.

(** X4: the reliability score of a non-negative lap count lies between 0
    and 1; it is the lap count over 50 up to 50 laps and 1 from 50 laps
    on, and it never decreases with the lap count. *)
Theorem reliability_score_capped (total_laps : Z) :
  (0 <= total_laps)%Z ->
  0 <= reliability_score total_laps
  /\ reliability_score total_laps <= 1
  /\ ((total_laps <= 50)%Z -> reliability_score total_laps == inject_Z total_laps / 50)
  /\ ((50 <= total_laps)%Z -> reliability_score total_laps == 1)
  /\ (forall more, (total_laps <= more)%Z ->
                   reliability_score total_laps <= reliability_score more).
Proof.
  intros Hpos. unfold reliability_score.
  assert (Hdiv : forall n m : Z, (n <= m)%Z -> inject_Z n / 50 <= inject_Z m / 50).
  { intros n m H. rewrite Zle_Qle in H. unfold Qdiv.
    apply Qmult_le_compat_r; [exact H | discriminate]. }
  assert (H50 : inject_Z 50 / 50 == 1.0) by reflexivity.
  assert (H0 : inject_Z 0 / 50 == 0) by reflexivity.
  split; [|split; [|split; [|split]]].
  - apply Q.min_glb; [|discriminate]. rewrite <- H0. now apply Hdiv.
  - eapply Qle_trans; [apply Q.le_min_r | lra].
  - intros H. apply Q.min_l. rewrite <- H50. now apply Hdiv.
  - intros H. rewrite Q.min_r; [reflexivity|]. rewrite <- H50. now apply Hdiv.
  - intros more H. apply Q.min_le_compat_r. now apply Hdiv.
Qed.

Lemma reliability_score_capped_witness :
  reliability_score 20 == 0.4 /\ reliability_score 70 == 1.
Proof.
  split.
  - destruct (reliability_score_capped 20) as (_ & _ & H & _); [discriminate|].
    transitivity (inject_Z 20 / 50); [apply H; discriminate | reflexivity].
  - destruct (reliability_score_capped 70) as (_ & _ & _ & H & _); [discriminate|].
    apply H. discriminate.
Defined.

Lemma Qsum_nonneg (l : list Q) : (forall x, In x l -> 0 <= x) -> 0 <= Qsum l.
Proof.
  intros H. pose proof (Qsum_lower_bound 0 l H) as Hs. lra.
Qed.

Lemma defined_In (column : list (option Q)) (x : Q) :
  In x (defined column) <-> In (Some x) column.
Proof.
  induction column as [|[y|] rest IH]; cbn [defined In].
  - tauto.
  - rewrite IH. split; intros [H|H]; auto; left; congruence.
  - rewrite IH. split; [now right | intros [H|H]; [discriminate | exact H]].
Qed.

Lemma consistency_score_nonneg (c : Q) : 0 <= c -> 0 <= consistency_score c.
Proof.
  intros H. unfold consistency_score. destruct (truthy c); lra.
Qed.

(** X5: if no session row has a negative consistency, no practice score
    is below -100, and every row of a returned ranking has a final score
    of at least 0.6 times its grid position minus 0.4. *)
Theorem practice_score_lower_bound (practice_data : list (list PracticeRow.t)) :
  (forall row c, In row (List.concat practice_data) ->
                 PracticeRow.Consistency row = Some c -> 0 <= c) ->
  (forall driver p,
     dict_lookup (driver_scores_of (List.concat practice_data)) driver = Some p ->
     -100 <= Profile.PracticeScore p)
  /\ (forall qualifying_data ranking r,
        calculate_prediction_score practice_data qualifying_data = Ok ranking ->
        In r ranking ->
        Prediction.QualifyingPosition r * 0.6 - 0.4 <= Prediction.FinalScore r).
Proof.
  intros Hcons.
  assert (Hscore : forall driver p,
             dict_lookup (driver_scores_of (List.concat practice_data)) driver = Some p ->
             -100 <= Profile.PracticeScore p).
  { intros driver p Hl.
    pose proof (profile_consistency _ _ _ Hl) as Hc.
    assert (Hc0 : 0 <= Profile.Consistency p).
    { rewrite Hc.
      destruct (defined (map PracticeRow.Consistency
                           (rows_of (List.concat practice_data) driver)))
        as [|c cs] eqn:E; [discriminate|].
      apply mean_lower_bound; [discriminate|].
      intros t Ht. rewrite <- E in Ht. apply defined_In in Ht.
      apply in_map_iff in Ht as (row & Hrow & Hin).
      apply rows_of_In in Hin as [Hin _]. now apply (Hcons row t). }
    revert Hl. rewrite lookup_driver_scores.
    destruct (practice_profile (List.concat practice_data) driver) as [p0|] eqn:E;
      [|discriminate].
    cbn [option_map]. intros [= <-].
    cbn [score_profile Profile.PracticeScore Profile.Consistency] in *.
    rewrite <- lookup_profiles_of in E. apply dict_lookup_In in E.
    pose proof (fastest_overall_least _ _ _ E) as Hfast.
    pose proof (consistency_score_nonneg _ Hc0) as Hcs.
    assert (Hrel : reliability_score (Profile.TotalLaps p0) <= 1)
      by (unfold reliability_score; eapply Qle_trans; [apply Q.le_min_r | lra]).
    lra. }
  split; [exact Hscore|].
  intros qualifying_data ranking r Hok Hr.
  apply calculate_prediction_score_Ok in Hok as [_ ->].
  apply (Permutation_in _ (Permutation_sym (ascending_perm _))) in Hr.
  apply final_rows_In in Hr as (q & data & _ & Hl & ->).
  cbn [final_row Prediction.QualifyingPosition Prediction.FinalScore].
  pose proof (Hscore _ _ Hl) as Hs.
  assert (Heq : Profile.PracticeScore data * 0.4 / 100
                == Profile.PracticeScore data * (4 # 1000)) by field.
  rewrite Heq. lra.
Qed.

Lemma practice_score_lower_bound_witness :
  exists p, dict_lookup (driver_scores_of (List.concat Example3.practice_data)) "A" = Some p
            /\ -100 <= Profile.PracticeScore p.
Proof.
  destruct (dict_lookup (driver_scores_of (List.concat Example3.practice_data)) "A")
    as [p|] eqn:E; [|vm_compute in E; discriminate].
  exists p. split; [reflexivity|].
  apply (proj1 (practice_score_lower_bound Example3.practice_data
                  ltac:(intros row c Hin Hc; vm_compute in Hin;
                        repeat (destruct Hin as [<-|Hin];
                                [injection Hc as <-; discriminate|]);
                        contradiction)) "A" p E).
Defined.

End ScoreBounds.

(** * Further properties of the session summarizer *)

Section SummarizerStructure.


Lemma summarize_drivers_all (session_name : string) (valid : list Lap.t)
    (drivers : list string) :
  (forall driver, In driver drivers -> driver_laps valid driver <> []) ->
  map PracticeRow.Driver (summarize_drivers session_name valid drivers) = drivers.
Proof.
  induction drivers as [|d drivers IH]; intros Hall; [reflexivity|].
  cbn [summarize_drivers].
  destruct (driver_laps valid d) as [|lap laps] eqn:E.
  - exfalso. now apply (Hall d (or_introl eq_refl)).
  - assert (Hpos : (0 <? Z.of_nat (List.length (lap :: laps)))%Z = true)
      by (apply Z.ltb_lt; cbn [List.length]; lia).
    rewrite Hpos. cbn [map PracticeRow.Driver]. f_equal.
    apply IH. intros driver Hin. apply Hall. now right.
Qed.

Lemma driver_laps_nonempty (valid : list Lap.t) (driver : string) :
  In driver (map Lap.Driver valid) -> driver_laps valid driver <> [].
Proof.
  intros Hin Hnil. apply in_map_iff in Hin as (lap & Hd & Hin).
  assert (H : In lap (driver_laps valid driver))
    by (apply filter_In; split; [exact Hin | now apply String.eqb_eq]).
  rewrite Hnil in H. contradiction.
Qed.

Lemma summarize_order (session_name : string) (lap_times : list Lap.t) :
  map PracticeRow.Driver (summarize session_name lap_times)
  = unique (map Lap.Driver (valid_laps lap_times)).
Proof.
  unfold summarize. apply summarize_drivers_all.
  intros driver Hin. apply driver_laps_nonempty. now apply unique_subset.
Qed.

Lemma summarize_nil_iff (session_name : string) (lap_times : list Lap.t) :
  summarize session_name lap_times = [] <->
  forall lap, In lap lap_times -> Lap.LapTime lap = None.
Proof.
  pose proof (summarize_order session_name lap_times) as Horder. split.
  - intros Hnil lap Hin. rewrite Hnil in Horder. cbn [map] in Horder.
    destruct (Lap.LapTime lap) as [t|] eqn:Et; [|reflexivity].
    assert (Hv : In lap (valid_laps lap_times))
      by (apply filter_In; split; [exact Hin | now rewrite Et]).
    assert (Hu : In (Lap.Driver lap) (unique (map Lap.Driver (valid_laps lap_times))))
      by (apply unique_complete; now apply in_map).
    rewrite <- Horder in Hu. contradiction.
  - intros Hnone.
    assert (Hv : valid_laps lap_times = []).
    { unfold valid_laps. destruct (filter _ lap_times) as [|lap l] eqn:E; [reflexivity|].
      assert (H : In lap (filter (fun lap => match Lap.LapTime lap with
                                             | Some _ => true
                                             | None => false
                                             end) lap_times)) by (rewrite E; now left).
      apply filter_In in H as [Hin Ht]. rewrite (Hnone lap Hin) in Ht. discriminate. }
    unfold summarize. now rewrite Hv.
Qed.

(** X8: the rows of the summarizer come in the order in which the
    drivers first appear among the valid laps; the frame is empty exactly
    when the session has no valid lap. *)
Theorem summarizer_row_order (session_name : string) (lap_times : list Lap.t) :
  map PracticeRow.Driver (summarize session_name lap_times)
  = unique (map Lap.Driver (valid_laps lap_times))
  /\ (summarize session_name lap_times = [] <->
      forall lap, In lap lap_times -> Lap.LapTime lap = None).
Proof.
  split; [apply summarize_order | apply summarize_nil_iff].
Qed.

Lemma indicator_sum (drivers : list string) (driver : string) :
  NoDup drivers -> In driver drivers ->
  fold_right Z.add 0%Z
    (map (fun d => if String.eqb driver d then 1%Z else 0%Z) drivers) = 1%Z.
Proof.
  induction 1 as [|d drivers Hnotin Hnd IH]; [intros []|].
  cbn [map fold_right]. intros [->|Hin].
  - rewrite String.eqb_refl.
    assert (Hz : fold_right Z.add 0%Z
                   (map (fun d => if String.eqb driver d then 1%Z else 0%Z) drivers) = 0%Z).
    { clear IH Hnd. induction drivers as [|d' ds IHd]; [reflexivity|].
      cbn [map fold_right].
      destruct (String.eqb_spec driver d') as [->|_].
      - exfalso. apply Hnotin. now left.
      - rewrite IHd; [reflexivity|]. intros H. apply Hnotin. now right. }
    lia.
  - destruct (String.eqb_spec driver d) as [->|_]; [contradiction|].
    rewrite (IH Hin). reflexivity.
Qed.

Lemma laps_per_driver (valid : list Lap.t) (drivers : list string) :
  NoDup drivers ->
  (forall lap, In lap valid -> In (Lap.Driver lap) drivers) ->
  fold_right Z.add 0%Z
    (map (fun d => Z.of_nat (List.length (driver_laps valid d))) drivers)
  = Z.of_nat (List.length valid).
Proof.
  intros Hnd. induction valid as [|lap laps IH]; intros Hin.
  - unfold driver_laps. cbn [filter List.length].
    induction drivers as [|d ds IHd]; [reflexivity|].
    cbn [map fold_right]. inversion Hnd; subst. rewrite IHd; [reflexivity | assumption | ].
    intros lap [].
  - assert (Hstep : forall ds,
               fold_right Z.add 0%Z
                 (map (fun d => Z.of_nat (List.length (driver_laps (lap :: laps) d))) ds)
               = (fold_right Z.add 0%Z
                    (map (fun d => if String.eqb (Lap.Driver lap) d then 1%Z else 0%Z) ds)
                  + fold_right Z.add 0%Z
                      (map (fun d => Z.of_nat (List.length (driver_laps laps d))) ds))%Z).
    { induction ds as [|d ds IHd]; [reflexivity|].
      cbn [map fold_right]. rewrite IHd.
      unfold driver_laps at 1. cbn [filter]. fold (driver_laps laps d).
      destruct (String.eqb (Lap.Driver lap) d); cbn [List.length]; lia. }
    rewrite Hstep, IH; [|intros l Hl; apply Hin; now right].
    rewrite (indicator_sum _ _ Hnd (Hin lap (or_introl eq_refl))).
    cbn [List.length]. lia.
Qed.

Lemma summarize_drivers_TotalLaps (session_name : string) (valid : list Lap.t)
    (drivers : list string) :
  fold_right Z.add 0%Z
    (map PracticeRow.TotalLaps (summarize_drivers session_name valid drivers))
  = fold_right Z.add 0%Z
      (map (fun d => Z.of_nat (List.length (driver_laps valid d))) drivers).
Proof.
  induction drivers as [|d drivers IH]; [reflexivity|].
  cbn [summarize_drivers map fold_right].
  destruct (0 <? Z.of_nat (List.length (driver_laps valid d)))%Z eqn:E.
  - cbn [map fold_right PracticeRow.TotalLaps]. now rewrite IH.
  - apply Z.ltb_ge in E. rewrite IH. lia.
Qed.

(** X9: the lap counts of the rows add up to the number of valid laps of
    the session: no valid lap is lost or counted twice. *)
Theorem summarizer_counts_every_valid_lap (session_name : string) (lap_times : list Lap.t) :
  fold_right Z.add 0%Z (map PracticeRow.TotalLaps (summarize session_name lap_times))
  = Z.of_nat (List.length (valid_laps lap_times)).
Proof.
  unfold summarize. rewrite summarize_drivers_TotalLaps.
  apply laps_per_driver; [apply unique_NoDup|].
  intros lap Hin. apply unique_complete. now apply in_map.
Qed.

(** X10: every row of the summarizer has a fastest lap and an average
    lap, counts at least one lap, and carries the session name. *)
Theorem summarizer_rows_complete (session_name : string) (lap_times : list Lap.t)
    (row : PracticeRow.t) :
  In row (summarize session_name lap_times) ->
  PracticeRow.FastestLap row <> None
  /\ PracticeRow.AverageLap row <> None
  /\ (1 <= PracticeRow.TotalLaps row)%Z
  /\ PracticeRow.Session row = session_name.
Proof.
  intros Hrow. apply summarize_In in Hrow as [Hne ->].
  destruct (valid_lap_durations lap_times (PracticeRow.Driver row)) as [|t ts];
    [contradiction|].
  cbn [summary_row PracticeRow.FastestLap PracticeRow.AverageLap PracticeRow.TotalLaps
       PracticeRow.Session series_min series_mean seconds_or_None option_map List.length].
  repeat split; try discriminate. lia.
Qed.

End SummarizerStructure.

Lemma summarizer_rows_complete_witness :
  exists row, In row (summarize "FP1" SessionLaps.lap_times)
              /\ PracticeRow.FastestLap row <> None.
Proof.
  destruct (summarize "FP1" SessionLaps.lap_times) as [|row rows] eqn:E;
    [vm_compute in E; discriminate|].
  exists row. split; [now left|].
  apply (summarizer_rows_complete "FP1" SessionLaps.lap_times row).
  rewrite E. now left.
Defined.

(** * The summarizer feeding the aggregator *)

Section SummarizerToAggregator.


Lemma practice_profile_exists (all_practice : list PracticeRow.t) (driver : string) :
  practice_profile all_practice driver <> None <->
  exists row, In row all_practice
              /\ PracticeRow.Driver row = driver
              /\ PracticeRow.FastestLap row <> None.
Proof.
  rewrite practice_profile_spec. cbv zeta. split.
  - destruct (filter has_fastest_lap (rows_of all_practice driver)) as [|row l] eqn:E;
      [intros H; now contradiction H|].
    intros _. exists row.
    assert (H : In row (filter has_fastest_lap (rows_of all_practice driver)))
      by (rewrite E; now left).
    apply filter_In in H as [Hin Hf]. apply rows_of_In in Hin as [Hin Hd].
    repeat split; try assumption.
    unfold has_fastest_lap in Hf. now destruct (PracticeRow.FastestLap row).
  - intros (row & Hin & Hd & Hf).
    destruct (filter has_fastest_lap (rows_of all_practice driver)) as [|r l] eqn:E;
      [|discriminate].
    exfalso. apply Hf.
    apply (proj1 (has_fastest_lap_filter_nil _) E). now apply rows_of_In.
Qed.

Lemma summarized_In (sessions : list (string * list Lap.t)) (row : PracticeRow.t) :
  In row (List.concat (summarized sessions)) <->
  exists name laps, In (name, laps) sessions /\ In row (summarize name laps).
Proof.
  unfold summarized. rewrite in_concat. split.
  - intros (frame & Hframe & Hrow). apply in_map_iff in Hframe as ([name laps] & <- & Hs).
    now exists name, laps.
  - intros (name & laps & Hs & Hrow). exists (summarize name laps).
    split; [|exact Hrow]. apply in_map_iff. now exists (name, laps).
Qed.

(** X11: when the practice frames are summaries of sessions, the drivers
    with a practice profile are exactly the drivers with a valid lap in
    at least one of the sessions. *)
Theorem profile_iff_valid_lap (sessions : list (string * list Lap.t)) (driver : string) :
  dict_lookup (driver_scores_of (List.concat (summarized sessions))) driver <> None
  <-> exists name laps, In (name, laps) sessions /\ valid_lap_times laps driver <> [].
Proof.
  rewrite lookup_driver_scores.
  assert (Hopt : forall (f : Profile.t -> Profile.t) o, option_map f o <> None <-> o <> None)
    by (intros f [x|]; cbn; split; intros H; congruence).
  rewrite Hopt, practice_profile_exists. split.
  - intros (row & Hin & Hd & _). apply summarized_In in Hin as (name & laps & Hs & Hrow).
    exists name, laps. split; [exact Hs|].
    apply summarize_In in Hrow as [Hne _]. now rewrite valid_lap_times_nil, <- Hd.
  - intros (name & laps & Hs & Hne). rewrite valid_lap_times_nil in Hne.
    exists (summary_row name driver (valid_lap_durations laps driver)).
    split; [|split; [reflexivity|]].
    + apply summarized_In. exists name, laps. split; [exact Hs|].
      now apply summarize_row.
    + cbn [summary_row PracticeRow.FastestLap].
      destruct (valid_lap_durations laps driver); [contradiction | discriminate].
Qed.

Lemma Qsum_constant (l : list Q) (t : Q) :
  (forall x, In x l -> x == t) -> Qsum l == t * inject_Z (Z.of_nat (List.length l)).
Proof.
  induction l as [|x l IH]; intros Hc.
  - unfold Qsum. cbn [fold_right List.length]. change (inject_Z (Z.of_nat 0)) with 0. ring.
  - cbn [Qsum fold_right List.length]. fold (Qsum l).
    rewrite Nat2Z.inj_succ, <- Z.add_1_r, inject_Z_plus.
    rewrite (Hc x (or_introl eq_refl)), IH; [|intros y Hy; apply Hc; now right].
    change (inject_Z 1) with 1. ring.
Qed.

(** The sample variance of laps of equal duration is zero. *)
Lemma sample_variance_constant (times : list Q) (t : Q) :
  (forall x, In x times -> x == t) -> sample_variance times == 0.
Proof.
  intros Hc. unfold sample_variance. cbv zeta.
  rewrite (Qsum_constant times t Hc).
  rewrite (Qsum_constant (map (fun x => x * x) times) (t * t)).
  - rewrite length_map. unfold Qdiv. ring.
  - intros y Hy. apply in_map_iff in Hy as (x & <- & Hx). now rewrite (Hc x Hx).
Qed.

Lemma equal_durations (ds : list Z) (t : Q) :
  (forall x, In x (map seconds ds) -> x == t) ->
  exists d, forall x, In x (map inject_Z ds) -> x == inject_Z d.
Proof.
  intros Hc. destruct ds as [|d ds]; [exists 0%Z; intros x []|].
  exists d. intros x Hx. apply in_map_iff in Hx as (d' & <- & Hd').
  assert (E : d' = d); [|now rewrite E].
  apply seconds_inj. rewrite (Hc (seconds d')) by now apply in_map.
  symmetry. apply Hc. now left.
Qed.

(** X12: a driver with at least two valid laps in a session, all of the
    same duration, has consistency zero in the row of that session. *)
Theorem identical_laps_zero_consistency (session_name : string) (lap_times : list Lap.t)
    (driver : string) (t : Q) :
  (2 <= List.length (valid_lap_times lap_times driver))%nat ->
  (forall x, In x (valid_lap_times lap_times driver) -> x == t) ->
  exists row s,
    In row (summarize session_name lap_times)
    /\ PracticeRow.Driver row = driver
    /\ PracticeRow.Consistency row = Some s
    /\ s == 0.
Proof.
  unfold valid_lap_times. rewrite length_map. intros Hlen Hc.
  set (ds := valid_lap_durations lap_times driver) in *.
  assert (Hne : ds <> []) by (intros E; rewrite E in Hlen; cbn in Hlen; lia).
  assert (Hvar : Qfloor (nanvar ds) = 0%Z).
  { destruct (equal_durations ds t Hc) as (d & Hd).
    assert (H0 : nanvar ds == 0)
      by (rewrite (nanvar_sample_variance ds Hlen);
          apply (sample_variance_constant _ (inject_Z d) Hd)).
    now rewrite (Qfloor_comp _ _ H0). }
  exists (summary_row session_name driver ds), (total_seconds 0).
  split; [now apply summarize_row|]. split; [reflexivity|]. split; [|reflexivity].
  cbn [summary_row PracticeRow.Consistency].
  destruct ds as [|x [|y ts]]; cbn [List.length] in Hlen; [lia | lia |].
  cbn [series_std seconds_or_None option_map]. now rewrite Hvar.
Qed.

End SummarizerToAggregator.

Lemma identical_laps_zero_consistency_witness :
  exists row s,
    In row (summarize "FP1" SameLaps.lap_times)
    /\ PracticeRow.Driver row = "A"
    /\ PracticeRow.Consistency row = Some s
    /\ s == 0.
Proof.
  apply (identical_laps_zero_consistency "FP1" SameLaps.lap_times "A" 90.0).
  - vm_compute. lia.
  - intros x Hx. vm_compute in Hx.
    repeat (destruct Hx as [<-|Hx]; [reflexivity|]). contradiction.
Defined.

(** * Printed output of the provider-facing functions *)

Section Emits.

Lemma emits_ret {A} (a : A) : emits (ret a) (Ok a) [].
Proof. intros out. unfold ret. now rewrite app_nil_r. Qed.

Lemma emits_print (line : string) : emits (print line) (Ok tt) [line].
Proof. intros out. reflexivity. Qed.

Lemma emits_lift {A} (r : result A) : emits (lift r) r [].
Proof. intros out. unfold lift. now rewrite app_nil_r. Qed.

Lemma emits_bind_Ok {A B} (m : IO A) (k : A -> IO B) (a : A) (r : result B)
    (l1 l2 : list string) :
  emits m (Ok a) l1 -> emits (k a) r l2 -> emits (bind m k) r (l1 ++ l2).
Proof.
  intros Hm Hk out. unfold bind. now rewrite Hm, Hk, app_assoc.
Qed.

Lemma emits_bind_Raise {A B} (m : IO A) (k : A -> IO B) (e : exn) (l : list string) :
  emits m (Raise e) l -> emits (bind m k) (Raise e) l.
Proof.
  intros Hm out. unfold bind. now rewrite Hm.
Qed.

Lemma emits_try_Ok {A} (body : IO A) (handler : exn -> IO A) (a : A) (l : list string) :
  emits body (Ok a) l -> emits (try_except body handler) (Ok a) l.
Proof.
  intros Hm out. unfold try_except. now rewrite Hm.
Qed.

Lemma emits_try_Raise {A} (body : IO A) (handler : exn -> IO A) (e : exn) (r : result A)
    (l1 l2 : list string) :
  emits body (Raise e) l1 -> emits (handler e) r l2 ->
  emits (try_except body handler) r (l1 ++ l2).
Proof.
  intros Hm Hh out. unfold try_except. now rewrite Hm, Hh, app_assoc.
Qed.

Lemma emits_result_of {A} (m : IO A) (r : result A) (l : list string) :
  emits m r l -> result_of m r.
Proof.
  intros H out. exists (out ++ l)%list. apply H.
Qed.

(** A program has one result and one list of printed lines. *)
Lemma emits_unique {A} (m : IO A) (r r' : result A) (l l' : list string) :
  emits m r l -> emits m r' l' -> r = r' /\ l = l'.
Proof.
  intros H H'. specialize (H []). specialize (H' []). cbn [app] in *.
  rewrite H in H'. now injection H' as -> ->.
Qed.

Lemma regular_ret {A} (a : A) : regular (ret a).
Proof. eexists. eexists. apply emits_ret. Qed.

Lemma regular_print (line : string) : regular (print line).
Proof. eexists. eexists. apply emits_print. Qed.

Lemma regular_lift {A} (r : result A) : regular (lift r).
Proof. eexists. eexists. apply emits_lift. Qed.

Lemma regular_bind {A B} (m : IO A) (k : A -> IO B) :
  regular m -> (forall a, regular (k a)) -> regular (bind m k).
Proof.
  intros (r & l & Hm) Hk. destruct r as [a|e].
  - destruct (Hk a) as (r' & l' & Hk'). exists r', (l ++ l')%list.
    now apply emits_bind_Ok with a.
  - exists (Raise e), l. now apply emits_bind_Raise.
Qed.

Lemma regular_try {A} (body : IO A) (handler : exn -> IO A) :
  regular body -> (forall e, regular (handler e)) -> regular (try_except body handler).
Proof.
  intros (r & l & Hm) Hh. destruct r as [a|e].
  - exists (Ok a), l. now apply emits_try_Ok.
  - destruct (Hh e) as (r' & l' & Hh'). exists r', (l ++ l')%list.
    now apply emits_try_Raise with e.
Qed.

End Emits.

Ltac regular_step :=
  first [ apply regular_ret
        | apply regular_print
        | apply regular_lift
        | apply regular_bind; [|intros ?]
        | apply regular_try; [|intros ?]
        | match goal with
          | |- regular (match ?x with _ => _ end) => destruct x
          end ].

Section RegularPrograms.

Variable fastf1 : Provider.t.

Lemma session_load_regular (session : SessionObj.t) : regular (session_load session).
Proof. unfold session_load. repeat regular_step. Qed.

Lemma get_session_data_regular (year : Z) (gp_name session_name : string) :
  regular (get_session_data fastf1 year gp_name session_name).
Proof.
  unfold get_session_data.
  repeat first [apply session_load_regular | regular_step].
Qed.

Lemma get_qualifying_positions_regular (year : Z) (gp_name : string) :
  regular (get_qualifying_positions fastf1 year gp_name).
Proof.
  unfold get_qualifying_positions.
  repeat first [apply session_load_regular | regular_step].
Qed.

Lemma find_gp_name_regular (year : Z) (names : list string) :
  regular (find_gp_name fastf1 year names).
Proof.
  induction names as [|name rest IH]; cbn [find_gp_name];
    repeat first [exact IH | regular_step].
Qed.

Lemma load_practice_regular (year : Z) (gp_name : string) (sessions : list string)
    (practice_data : list (list PracticeRow.t)) :
  regular (load_practice fastf1 year gp_name sessions practice_data).
Proof.
  revert practice_data.
  induction sessions as [|session rest IH]; intros practice_data; cbn [load_practice];
    repeat first [apply IH | apply get_session_data_regular | regular_step].
Qed.

Lemma load_reference_regular (year : Z) (gp_name : string) (sessions : list string)
    (practice_data : list (list PracticeRow.t)) :
  regular (load_reference fastf1 year gp_name sessions practice_data).
Proof.
  revert practice_data.
  induction sessions as [|session rest IH]; intros practice_data; cbn [load_reference];
    repeat first [apply IH | apply get_session_data_regular | regular_step].
Qed.

Lemma print_rows_emits (i : Z) (top : list Prediction.t) :
  emits (print_rows i top) (Ok tt) (row_lines i top).
Proof.
  revert i. induction top as [|row rest IH]; intros i; cbn [print_rows row_lines].
  - apply emits_ret.
  - apply (emits_bind_Ok _ _ tt _ [row_line i row]); [apply emits_print | apply IH].
Qed.

Lemma print_scores_emits (i : Z) (top : list Prediction.t) :
  emits (print_scores i top) (Ok tt) (score_lines i top).
Proof.
  revert i. induction top as [|row rest IH]; intros i; cbn [print_scores score_lines].
  - apply emits_ret.
  - eapply (emits_bind_Ok _ _ tt _ [_]); [apply emits_print | apply IH].
Qed.

Lemma report_regular (practice_data : list (list PracticeRow.t))
    (predictions : list Prediction.t) :
  regular (report practice_data predictions).
Proof.
  unfold report.
  repeat first [ eexists; eexists; apply print_rows_emits | regular_step ].
Qed.

Lemma predict_race_winner_regular : regular (predict_race_winner fastf1).
Proof.
  unfold predict_race_winner.
  repeat first [ apply find_gp_name_regular | apply load_practice_regular
               | apply get_qualifying_positions_regular | apply report_regular
               | regular_step ].
Qed.

End RegularPrograms.

(** * Further properties of [predict_race_winner] *)

Section PredictOutcomes.

Variable fastf1 : Provider.t.

Lemma result_of_unique {A} (m : IO A) (r1 r2 : result A) :
  result_of m r1 -> result_of m r2 -> r1 = r2.
Proof.
  intros H1 H2. destruct (H1 []) as [o1 E1]. destruct (H2 []) as [o2 E2]. congruence.
Qed.

Lemma run_practice_data_rows :
  run_practice_data fastf1 <> [] -> List.concat (run_practice_data fastf1) <> [].
Proof.
  pose proof (loaded_practice_nonempty fastf1 2025 "British Grand Prix"
                ["FP1"; "FP2"; "FP3"]) as Hne.
  fold (run_practice_data fastf1) in Hne.
  destruct (run_practice_data fastf1) as [|frame frames]; [intros H; now contradiction H|].
  intros _. inversion Hne as [|? ? Hframe _]; subst.
  destruct frame as [|row rows]; [contradiction|]. discriminate.
Qed.

(** X13: [predict_race_winner] returns [None] exactly when the event is
    not found, no practice session could be loaded, or qualifying could
    not be loaded; since the aggregator never returns an empty ranking,
    the check of [predictions.empty] at line 204 never succeeds. *)
Theorem returns_None_iff_data_missing :
  (exists out, run (predict_race_winner fastf1) = (Ok None, out))
  <-> (~ event_found fastf1
       \/ run_practice_data fastf1 = []
       \/ run_qualifying_data fastf1 = []).
Proof.
  pose proof (predict_race_winner_result fastf1) as Hres.
  destruct (Hres []) as [out0 Hout]. unfold run. rewrite Hout. unfold event_found.
  destruct (Provider.get_session fastf1 2025 "British Grand Prix" "FP1") as [session|e].
  - destruct (run_practice_data fastf1) as [|frame frames] eqn:Epd.
    + split; [intros _; right; now left | intros _; now exists out0].
    + destruct (run_qualifying_data fastf1) as [|q qd] eqn:Eqd.
      * split; [intros _; right; now right | intros _; now exists out0].
      * split.
        -- intros [out H]. exfalso. injection H as H _.
           destruct (calculate_prediction_score (frame :: frames) (q :: qd))
             as [[|r1 [|r2 [|r3 rest]]]|e] eqn:Ecalc; try discriminate.
           now apply calculate_prediction_score_nonempty in Ecalc.
        -- intros [H|[H|H]]; [|discriminate H|discriminate H].
           exfalso. apply H. now exists session.
  - split; [|intros _; now exists out0].
    intros _. left. intros [session H]. discriminate H.
Qed.

(** X14: when the event is found and practice and qualifying are loaded,
    but no qualifying driver has a practice profile, the run ends with
    [KeyError: 'FinalScore'] instead of returning [None]. *)
Theorem no_overlap_run_raises :
  event_found fastf1 ->
  run_practice_data fastf1 <> [] ->
  run_qualifying_data fastf1 <> [] ->
  (forall q, In q (run_qualifying_data fastf1) ->
             dict_lookup (driver_scores_of (List.concat (run_practice_data fastf1)))
               (QualRow.Driver q) = None) ->
  exists out, run (predict_race_winner fastf1) = (Raise (KeyError "FinalScore"), out).
Proof.
  intros [session Hfound] Hpd Hqd Hnone.
  pose proof (predict_race_winner_result fastf1) as Hres.
  destruct (Hres []) as [out Hout]. exists out. unfold run. rewrite Hout. f_equal.
  rewrite Hfound.
  pose proof (run_practice_data_rows Hpd) as Hrows.
  rewrite (calculate_prediction_score_cases (run_practice_data fastf1)
             (run_qualifying_data fastf1)).
  apply final_rows_nil_iff in Hnone.
  destruct (run_practice_data fastf1) as [|frame frames]; [contradiction|].
  destruct (run_qualifying_data fastf1) as [|q qd]; [contradiction|].
  destruct (List.concat (frame :: frames)) as [|row rows]; [contradiction|].
  now rewrite Hnone.
Qed.

End PredictOutcomes.

Lemma no_overlap_run_raises_witness :
  exists out,
    run (predict_race_winner Strangers.fastf1) = (Raise (KeyError "FinalScore"), out).
Proof.
  apply (no_overlap_run_raises Strangers.fastf1).
  - eexists. reflexivity.
  - vm_compute. discriminate.
  - vm_compute. discriminate.
  - intros q Hq. vm_compute in Hq. destruct Hq as [<-|[]]. vm_compute. reflexivity.
Defined.

(** * What the report prints *)

Section PrintedLines.

Lemma prints_here {A B} (m : IO A) (k : A -> IO B) (a : A) (l : list string)
    (line : string) :
  emits m (Ok a) l -> In line l -> regular (k a) -> prints (bind m k) line.
Proof.
  intros Hm Hin (r & l' & Hk). exists r, (l ++ l')%list. split.
  - now apply emits_bind_Ok with a.
  - apply in_or_app. now left.
Qed.

Lemma prints_later {A B} (m : IO A) (k : A -> IO B) (a : A) (l : list string)
    (line : string) :
  emits m (Ok a) l -> prints (k a) line -> prints (bind m k) line.
Proof.
  intros Hm (r & l' & Hk & Hin). exists r, (l ++ l')%list. split.
  - now apply emits_bind_Ok with a.
  - apply in_or_app. now right.
Qed.

Lemma regular_emits {A} (m : IO A) (r : result A) :
  regular m -> result_of m r -> exists l, emits m r l.
Proof.
  intros (r' & l & He) Hr. exists l.
  now rewrite (result_of_unique m r r' Hr (emits_result_of m r' l He)).
Qed.

Variable fastf1 : Provider.t.

Ltac later lemma := eapply prints_later; [apply lemma | cbv beta].
Ltac later_print := later emits_print.

Lemma report_prints_confidence (practice_data : list (list PracticeRow.t))
    (winner second : Prediction.t) (rest : list Prediction.t) :
  prints (report practice_data (winner :: second :: rest)) (confidence_line winner second).
Proof.
  unfold report. later_print. later_print. later print_rows_emits.
  later (emits_lift (Ok winner)). later_print. later_print. later_print.
  later (emits_lift (Ok second)).
  eapply prints_here; [apply emits_print | now left|].
  repeat regular_step.
Qed.

(** What comes first can be put in front of what a later part prints. *)
Lemma emits_after {A B} (m : IO A) (k : A -> IO B) (a : A) (l : list string)
    (P : result B -> list string -> Prop) :
  emits m (Ok a) l ->
  (exists before, forall r lines, P r lines -> emits (k a) r (before ++ lines)%list) ->
  exists before, forall r lines, P r lines -> emits (bind m k) r (before ++ lines)%list.
Proof.
  intros Hm (before & Hk). exists (l ++ before)%list. intros r lines HP.
  rewrite <- app_assoc. apply emits_bind_Ok with a; [exact Hm | now apply Hk].
Qed.

Ltac after lemma := eapply emits_after; [apply lemma | cbv beta].
Ltac after_print := after emits_print.

(** A run that computes a ranking prints what the report on it prints,
    after the lines of the loading phase, and ends as the report ends. *)
Lemma predict_race_winner_emits_report (ranking : list Prediction.t) :
  event_found fastf1 ->
  calculate_prediction_score (run_practice_data fastf1) (run_qualifying_data fastf1)
  = Ok ranking ->
  exists before, forall r lines,
    emits (report (run_practice_data fastf1) ranking) r lines ->
    emits (predict_race_winner fastf1) r (before ++ lines)%list.
Proof.
  intros [session Hfound] Hok. unfold predict_race_winner.
  after_print. after_print. after_print.
  destruct (regular_emits _ _ (find_gp_name_regular fastf1 2025 ["British Grand Prix"])
              (find_gp_name_result fastf1 2025 "British Grand Prix")) as [l1 H1].
  rewrite Hfound in H1.
  eapply emits_after; [exact H1 | cbv beta iota].
  after_print.
  destruct (regular_emits _ _
              (load_practice_regular fastf1 2025 "British Grand Prix"
                 ["FP1"; "FP2"; "FP3"] [])
              (load_practice_result fastf1 2025 "British Grand Prix"
                 ["FP1"; "FP2"; "FP3"] [])) as [l2 H2].
  cbn [app] in H2. fold (run_practice_data fastf1) in H2.
  eapply emits_after; [exact H2 | cbv beta].
  after_print.
  destruct (regular_emits _ _
              (get_qualifying_positions_regular fastf1 2025 "British Grand Prix")
              (get_qualifying_positions_result fastf1 2025 "British Grand Prix")) as [l3 H3].
  fold (run_qualifying_data fastf1) in H3.
  eapply emits_after; [exact H3 | cbv beta].
  assert (Hpd : run_practice_data fastf1 <> [])
    by (intros E; rewrite E in Hok; discriminate).
  assert (Hqd : run_qualifying_data fastf1 <> []).
  { intros E. rewrite E in Hok.
    apply calculate_prediction_score_Ok in Hok as [Hne _]. now apply Hne. }
  pose proof (calculate_prediction_score_nonempty _ _ _ Hok) as Hne.
  revert Hok.
  destruct (run_practice_data fastf1) as [|frame frames]; [contradiction|].
  destruct (run_qualifying_data fastf1) as [|q qd]; [contradiction|].
  intros Hok.
  after_print. after_print. rewrite Hok.
  after (emits_lift (Ok ranking)).
  destruct ranking as [|r1 rest]; [contradiction|].
  exists []. intros r lines H. exact H.
Qed.

Lemma predict_race_winner_prints_report (ranking : list Prediction.t) (line : string) :
  event_found fastf1 ->
  calculate_prediction_score (run_practice_data fastf1) (run_qualifying_data fastf1)
  = Ok ranking ->
  prints (report (run_practice_data fastf1) ranking) line ->
  prints (predict_race_winner fastf1) line.
Proof.
  intros Hfound Hok (r & lines & He & Hin).
  destruct (predict_race_winner_emits_report ranking Hfound Hok) as [before Hbefore].
  exists r, (before ++ lines)%list. split; [now apply Hbefore|].
  apply in_or_app. now right.
Qed.






(** X15: in a run that computes a ranking of two or more drivers, the
    printed confidence is never below 100 percent: it is computed from
    the winner's final score minus the second's, which is not positive
    because the ranking is in ascending order. *)
Theorem confidence_at_least_100 (winner second : Prediction.t) (rest : list Prediction.t) :
  event_found fastf1 ->
  calculate_prediction_score (run_practice_data fastf1) (run_qualifying_data fastf1)
  = Ok (winner :: second :: rest) ->
  prints (predict_race_winner fastf1) (confidence_line winner second)
  /\ 100 <= confidence winner second.
Proof.
  intros Hfound Hok. split.
  - apply (predict_race_winner_prints_report _ _ Hfound Hok).
    apply report_prints_confidence.
  - apply calculate_prediction_score_Ok in Hok as [_ Hsorted].
    pose proof (ascending_sorted
                  (final_rows (driver_scores_of (List.concat (run_practice_data fastf1)))
                     (run_qualifying_data fastf1))) as Hs.
    rewrite <- Hsorted in Hs.
    assert (Hle : score_le winner second)
      by (apply (sorted_head_least winner (second :: rest) second Hs); right; now left).
    unfold score_le in Hle. unfold confidence.
    assert (Heq : (1 - (Prediction.FinalScore winner - Prediction.FinalScore second) / 10) * 100
                  == 100 - (Prediction.FinalScore winner - Prediction.FinalScore second) * 10)
      by field.
    rewrite Heq. lra.
Qed.


End PrintedLines.

Lemma confidence_at_least_100_witness :
  exists winner second,
    prints (predict_race_winner (ExampleProvider.fastf1 3))
      (confidence_line winner second)
    /\ 100 <= confidence winner second.
Proof.
  destruct (calculate_prediction_score (run_practice_data (ExampleProvider.fastf1 3))
              (run_qualifying_data (ExampleProvider.fastf1 3)))
    as [[|winner [|second rest]]|e] eqn:E;
    try (vm_compute in E; discriminate).
  exists winner, second.
  apply (confidence_at_least_100 (ExampleProvider.fastf1 3) winner second rest).
  - eexists. reflexivity.
  - exact E.
Defined.


(** * The script body *)

Section MainProperties.

Variable fastf1 : Provider.t.
Variable head_10 : string -> string.

Lemma load_reference_result (year : Z) (gp_name : string) (sessions : list string)
    (practice_data : list (list PracticeRow.t)) :
  result_of (load_reference fastf1 year gp_name sessions practice_data)
    (Ok (practice_data ++ loaded_practice fastf1 year gp_name sessions)%list).
Proof.
  revert practice_data.
  induction sessions as [|session rest IH]; intros practice_data; cbn [load_reference].
  - unfold loaded_practice. cbn [map filter]. rewrite app_nil_r. apply result_of_ret.
  - eapply result_of_bind_Ok; [apply get_session_data_result | cbv beta].
    unfold loaded_practice. cbn [map filter]. fold (loaded_practice fastf1 year gp_name rest).
    destruct (session_frame fastf1 year gp_name session) as [|row rows].
    + apply IH.
    + rewrite (app_assoc practice_data [row :: rows]
                 (loaded_practice fastf1 year gp_name rest)
               : (practice_data ++ (row :: rows)
                    :: loaded_practice fastf1 year gp_name rest)%list = _).
      apply IH.
Qed.

Lemma schedule_emits :
  emits
    (bind (print "🔍 Checking available F1 races for 2025...")
       (fun _ =>
          try_except
            (bind (lift (Provider.get_event_schedule fastf1 2025))
               (fun schedule =>
                  bind (print (nl ++ "Available F1 races for 2025:"))
                    (fun _ => bind (print (head_10 schedule))
                                (fun _ => print (nl ++ times "=" 50)))))
            (fun e => print ("Could not retrieve schedule: " ++ str e))))
    (Ok tt) (schedule_lines fastf1 head_10).
Proof.
  unfold schedule_lines.
  apply (emits_bind_Ok _ _ tt _ [_] _ (emits_print _)).
  destruct (Provider.get_event_schedule fastf1 2025) as [schedule|e].
  - apply emits_try_Ok.
    apply (emits_bind_Ok _ _ schedule _ [] _ (emits_lift _)).
    apply (emits_bind_Ok _ _ tt _ [_] _ (emits_print _)).
    apply (emits_bind_Ok _ _ tt _ [_] _ (emits_print _)).
    apply emits_print.
  - apply (emits_try_Raise _ _ e _ [] [_]).
    + apply emits_bind_Raise. apply emits_lift.
    + apply emits_print.
Qed.

Lemma handler_emits (e : exn) :
  emits
    (bind (print ("Error: " ++ str e))
       (fun _ =>
          bind (print "Make sure you have fastf1 installed: pip install fastf1")
            (fun _ =>
               print "Note: This script requires internet connection to fetch F1 data")))
    (Ok tt) (error_lines e).
Proof.
  unfold error_lines.
  apply (emits_bind_Ok _ _ tt _ [_] _ (emits_print _)).
  apply (emits_bind_Ok _ _ tt _ [_] _ (emits_print _)).
  apply emits_print.
Qed.

(** The part of the script that runs after [predict_race_winner] has
    returned [None]. *)
Lemma reference_run_emits :
  exists loading,
    emits
      (bind (print (nl ++ "Alternative: Testing with 2024 British GP data..."))
         (fun _ =>
            bind (print "Note: 2025 season data might not be available yet.")
              (fun _ =>
                 bind (print (nl ++ "Loading 2024 " ++ "Great Britain"
                              ++ " GP data for demonstration..."))
                   (fun _ =>
                      bind (load_reference fastf1 2024 "Great Britain"
                              ["FP1"; "FP2"; "FP3"] [])
                        (fun practice_data =>
                           bind (get_qualifying_positions fastf1 2024 "Great Britain")
                             (fun qualifying_data =>
                                match practice_data, qualifying_data with
                                | _ :: _, _ :: _ =>
                                    bind (lift (calculate_prediction_score practice_data
                                                  qualifying_data))
                                      (fun predictions =>
                                         bind (print (nl ++ "🏆 2024 BRITISH GP ANALYSIS (for reference)"))
                                           (fun _ =>
                                              bind (print (times "=" 50))
                                                (fun _ => print_scores 1 (firstn 5 predictions))))
                                | _, _ => ret tt
                                end))))))
      (match reference_practice_data fastf1, reference_qualifying_data fastf1 with
       | _ :: _, _ :: _ =>
           match calculate_prediction_score (reference_practice_data fastf1)
                   (reference_qualifying_data fastf1) with
           | Ok _ => Ok tt
           | Raise e => Raise e
           end
       | _, _ => Ok tt
       end)
      (alternative_lines ++ loading
       ++ match reference_practice_data fastf1, reference_qualifying_data fastf1 with
          | _ :: _, _ :: _ =>
              match calculate_prediction_score (reference_practice_data fastf1)
                      (reference_qualifying_data fastf1) with
              | Ok predictions =>
                  [nl ++ "🏆 2024 BRITISH GP ANALYSIS (for reference)"; times "=" 50]
                  ++ score_lines 1 (firstn 5 predictions)
              | Raise e => []
              end
          | _, _ => []
          end).
Proof.
  destruct (regular_emits _ _
              (load_reference_regular fastf1 2024 "Great Britain"
                 ["FP1"; "FP2"; "FP3"] [])
              (load_reference_result 2024 "Great Britain" ["FP1"; "FP2"; "FP3"] []))
    as [l1 H1].
  cbn [app] in H1. fold (reference_practice_data fastf1) in H1.
  destruct (regular_emits _ _
              (get_qualifying_positions_regular fastf1 2024 "Great Britain")
              (get_qualifying_positions_result fastf1 2024 "Great Britain")) as [l2 H2].
  fold (reference_qualifying_data fastf1) in H2.
  exists (l1 ++ l2)%list. unfold alternative_lines.
  apply (emits_bind_Ok _ _ tt _ [_] _ (emits_print _)).
  apply (emits_bind_Ok _ _ tt _ [_] _ (emits_print _)).
  apply (emits_bind_Ok _ _ tt _ [_] _ (emits_print _)).
  rewrite <- app_assoc.
  apply (emits_bind_Ok _ _ _ _ l1 _ H1).
  apply (emits_bind_Ok _ _ _ _ l2 _ H2).
  destruct (reference_practice_data fastf1) as [|frame frames];
    [apply emits_ret|].
  destruct (reference_qualifying_data fastf1) as [|q qd]; [apply emits_ret|].
  destruct (calculate_prediction_score (frame :: frames) (q :: qd)) as [predictions|e].
  - apply (emits_bind_Ok _ _ predictions _ [] _ (emits_lift _)).
    apply (emits_bind_Ok _ _ tt _ [_] _ (emits_print _)).
    apply (emits_bind_Ok _ _ tt _ [_] _ (emits_print _)).
    apply print_scores_emits.
  - apply emits_bind_Raise. apply emits_lift.
Qed.

(** What the script prints, by the outcome of [predict_race_winner]. *)
Lemma main_emits (r : result (option (list Prediction.t))) (lines : list string) :
  emits (predict_race_winner fastf1) r lines ->
  match r with
  | Raise e =>
      emits (main fastf1 head_10) (Ok tt)
        (schedule_lines fastf1 head_10 ++ lines ++ error_lines e)
  | Ok (Some _) =>
      emits (main fastf1 head_10) (Ok tt) (schedule_lines fastf1 head_10 ++ lines)
  | Ok None =>
      exists loading,
        emits (main fastf1 head_10) (Ok tt)
          (schedule_lines fastf1 head_10 ++ lines ++ alternative_lines ++ loading
           ++ reference_lines fastf1)
  end.
Proof.
  intros Hp. unfold main.
  destruct r as [[ranking|]|e].
  - apply emits_try_Ok.
    apply (emits_bind_Ok _ _ tt _ _ _ schedule_emits).
    rewrite <- (app_nil_r lines).
    apply (emits_bind_Ok _ _ _ _ _ _ Hp). apply emits_ret.
  - destruct reference_run_emits as [loading Href]. exists loading.
    unfold reference_lines.
    destruct (reference_practice_data fastf1) as [|frame frames] eqn:Epd;
      [|destruct (reference_qualifying_data fastf1) as [|q qd] eqn:Eqd;
        [|destruct (calculate_prediction_score (frame :: frames) (q :: qd))
            as [predictions|e] eqn:Ecalc]].
    + apply emits_try_Ok.
      apply (emits_bind_Ok _ _ tt _ _ _ schedule_emits).
      apply (emits_bind_Ok _ _ _ _ _ _ Hp).
      rewrite app_assoc. exact Href.
    + apply emits_try_Ok.
      apply (emits_bind_Ok _ _ tt _ _ _ schedule_emits).
      apply (emits_bind_Ok _ _ _ _ _ _ Hp).
      rewrite app_assoc. exact Href.
    + apply emits_try_Ok.
      apply (emits_bind_Ok _ _ tt _ _ _ schedule_emits).
      apply (emits_bind_Ok _ _ _ _ _ _ Hp).
      rewrite app_assoc. exact Href.
    + replace (schedule_lines fastf1 head_10 ++ lines ++ alternative_lines ++ loading
               ++ error_lines e)%list
        with ((schedule_lines fastf1 head_10 ++ lines ++ (alternative_lines ++ loading) ++ [])
              ++ error_lines e)%list
        by (rewrite app_nil_r, <- !app_assoc; reflexivity).
      apply (emits_try_Raise _ _ e); [|apply handler_emits].
      apply (emits_bind_Ok _ _ tt _ _ _ schedule_emits).
      apply (emits_bind_Ok _ _ _ _ _ _ Hp).
      rewrite <- app_assoc. exact Href.
  - rewrite app_assoc.
    apply (emits_try_Raise _ _ e); [|apply handler_emits].
    apply (emits_bind_Ok _ _ tt _ _ _ schedule_emits).
    apply emits_bind_Raise. exact Hp.
Qed.

(** X17: what the script prints around [predict_race_winner].  If that
    call raises, the exception is caught at line 282: the script prints
    the three error lines and does not turn to the 2024 event.  If it
    returns a ranking, the script prints nothing more.  If it returns
    [None], the script loads the 2024 event and prints the first five
    scores of its ranking, however short that ranking is, or the three
    error lines if the aggregator raises there.  In no case does the
    script end with an exception. *)
Theorem script_output (lines : list string) :
  (forall e,
     emits (predict_race_winner fastf1) (Raise e) lines ->
     emits (main fastf1 head_10) (Ok tt)
       (schedule_lines fastf1 head_10 ++ lines ++ error_lines e))
  /\ (forall ranking,
        emits (predict_race_winner fastf1) (Ok (Some ranking)) lines ->
        emits (main fastf1 head_10) (Ok tt) (schedule_lines fastf1 head_10 ++ lines))
  /\ (emits (predict_race_winner fastf1) (Ok None) lines ->
      exists loading,
        emits (main fastf1 head_10) (Ok tt)
          (schedule_lines fastf1 head_10 ++ lines ++ alternative_lines ++ loading
           ++ reference_lines fastf1)).
Proof.
  split; [|split].
  - intros e H. apply (main_emits _ _ H).
  - intros ranking H. apply (main_emits _ _ H).
  - intros H. apply (main_emits _ _ H).
Qed.

(** X18: the script never ends with an exception, whatever the provider
    does. *)
Theorem script_never_raises :
  exists lines, emits (main fastf1 head_10) (Ok tt) lines.
Proof.
  destruct (predict_race_winner_regular fastf1) as (r & lines & Hp).
  pose proof (main_emits r lines Hp) as H.
  destruct r as [[ranking|]|e].
  - eexists. exact H.
  - destruct H as [loading H]. eexists. exact H.
  - eexists. exact H.
Qed.

End MainProperties.

Lemma script_output_witness :
  exists lines,
    emits (main (ExampleProvider.fastf1 2) (fun schedule => schedule)) (Ok tt)
      (schedule_lines (ExampleProvider.fastf1 2) (fun schedule => schedule)
       ++ lines ++ error_lines out_of_bounds).
Proof.
  destruct (predict_race_winner_regular (ExampleProvider.fastf1 2))
    as (r & lines & Hp).
  assert (Hr : r = Raise out_of_bounds).
  { pose proof (Hp []) as H.
    assert (Hrun : fst (predict_race_winner (ExampleProvider.fastf1 2) [])
                   = Raise out_of_bounds) by (vm_compute; reflexivity).
    rewrite H in Hrun. exact Hrun. }
  subst r. exists lines.
  apply (proj1 (script_output (ExampleProvider.fastf1 2) (fun schedule => schedule)
                  lines) out_of_bounds Hp).
Defined.

(** * Loading a session *)

Section Loading.

Variable fastf1 : Provider.t.

(** X19: when the provider delivers a session, [get_session_data] prints
    nothing and returns the summary of the laps of that session; the
    frame it returns is empty, so that the caller reports the session as
    without data, exactly when the provider raised or no lap of the
    session has a lap time. *)
Theorem session_frame_empty_iff (year : Z) (gp_name session_name : string)
    (out : list string) :
  (forall session,
     Provider.get_session fastf1 year gp_name session_name = Ok session ->
     SessionObj.load session = None ->
     get_session_data fastf1 year gp_name session_name out
     = (Ok (summarize session_name (SessionObj.laps session)), out))
  /\ (fst (get_session_data fastf1 year gp_name session_name out) = Ok []
      <-> (exists e, provider_raises fastf1 year gp_name session_name e)
          \/ (exists session,
                Provider.get_session fastf1 year gp_name session_name = Ok session
                /\ SessionObj.load session = None
                /\ forall lap, In lap (SessionObj.laps session) -> Lap.LapTime lap = None)).
Proof.
  rewrite get_session_data_fetch. split.
  - intros session Hs Hl. unfold fetch. rewrite Hs. cbn [rbind]. now rewrite Hl.
  - destruct (fetch fastf1 year gp_name session_name) as [session|e] eqn:E; cbn [fst].
    + assert (Hs : Provider.get_session fastf1 year gp_name session_name = Ok session
                   /\ SessionObj.load session = None).
      { unfold fetch in E.
        destruct (Provider.get_session fastf1 year gp_name session_name) as [s|e0];
          cbn [rbind] in E; [|discriminate].
        destruct (SessionObj.load s) eqn:El; [discriminate|].
        injection E as ->. now split. }
      destruct Hs as [Hs Hl]. split.
      * intros [= Hnil]. right. exists session. repeat split; try assumption.
        now apply (summarize_nil_iff session_name).
      * intros [[e He]|(s & Hs' & _ & Hnone)].
        -- apply provider_raises_fetch in He. congruence.
        -- f_equal. apply summarize_nil_iff.
           rewrite Hs in Hs'. now injection Hs' as ->.
    + split; [|reflexivity]. intros _. left. exists e. now apply provider_raises_fetch.
Qed.

End Loading.

Lemma session_frame_empty_iff_witness :
  get_session_data (ExampleProvider.fastf1 3) 2025 "British Grand Prix" "FP1" []
  = (Ok (summarize "FP1" ExampleProvider.lap_times), []).
Proof.
  apply (proj1 (session_frame_empty_iff (ExampleProvider.fastf1 3) 2025
                  "British Grand Prix" "FP1" [])
           (SessionObj.mk None ExampleProvider.lap_times (firstn 3 ExampleProvider.results)));
    reflexivity.
Defined.

Section LoadingQualifying.

Variable fastf1 : Provider.t.

(** X20: when the provider delivers the qualifying session,
    [get_qualifying_positions] prints nothing and returns one row per row
    of the results, in the same order, with the abbreviation as driver
    and the position unchanged; the frame it returns is empty exactly
    when the provider raised or the results have no row. *)
Theorem qualifying_frame_rows (year : Z) (gp_name : string) (out : list string) :
  (forall session,
     Provider.get_session fastf1 year gp_name "Q" = Ok session ->
     SessionObj.load session = None ->
     exists rows,
       get_qualifying_positions fastf1 year gp_name out = (Ok rows, out)
       /\ map QualRow.Driver rows = map ResultRow.Abbreviation (SessionObj.results session)
       /\ map QualRow.QualifyingPosition rows
          = map ResultRow.Position (SessionObj.results session))
  /\ (fst (get_qualifying_positions fastf1 year gp_name out) = Ok []
      <-> (exists e, provider_raises fastf1 year gp_name "Q" e)
          \/ (exists session,
                Provider.get_session fastf1 year gp_name "Q" = Ok session
                /\ SessionObj.load session = None
                /\ SessionObj.results session = [])).
Proof.
  rewrite get_qualifying_positions_fetch. split.
  - intros session Hs Hl. unfold fetch. rewrite Hs. cbn [rbind]. rewrite Hl.
    eexists. split; [reflexivity|].
    unfold extract_qualifying. rewrite !map_map. split; reflexivity.
  - destruct (fetch fastf1 year gp_name "Q") as [session|e] eqn:E; cbn [fst].
    + assert (Hs : Provider.get_session fastf1 year gp_name "Q" = Ok session
                   /\ SessionObj.load session = None).
      { unfold fetch in E.
        destruct (Provider.get_session fastf1 year gp_name "Q") as [s|e0];
          cbn [rbind] in E; [|discriminate].
        destruct (SessionObj.load s) eqn:El; [discriminate|].
        injection E as ->. now split. }
      destruct Hs as [Hs Hl]. split.
      * intros [= Hnil]. right. exists session. repeat split; try assumption.
        unfold extract_qualifying in Hnil. now apply map_eq_nil in Hnil.
      * intros [[e He]|(s & Hs' & _ & Hnone)].
        -- apply provider_raises_fetch in He. congruence.
        -- rewrite Hs in Hs'. injection Hs' as ->.
           unfold extract_qualifying. now rewrite Hnone.
    + split; [|reflexivity]. intros _. left. exists e. now apply provider_raises_fetch.
Qed.

End LoadingQualifying.

Lemma qualifying_frame_rows_witness :
  exists rows,
    get_qualifying_positions (ExampleProvider.fastf1 3) 2025 "British Grand Prix" []
    = (Ok rows, [])
    /\ map QualRow.Driver rows = ["B"; "A"; "C"].
Proof.
  destruct (proj1 (qualifying_frame_rows (ExampleProvider.fastf1 3) 2025
                     "British Grand Prix" [])
              (SessionObj.mk None ExampleProvider.lap_times (firstn 3 ExampleProvider.results))
              eq_refl eq_refl) as (rows & Hrun & Hdrivers & _).
  exists rows. split; [exact Hrun | exact Hdrivers].
Defined.
